(** * Session layer and HTTP transport of the AMD SMI MCP server

    A shallow embedding of [mcp_amdsmi/session_manager.py] and of the
    request path of [mcp_amdsmi/http_transport.py], followed by the
    properties of the protocol layer that were checked against it.

    Conventions of the embedding.
    - Python [str] and [bytes] values are [string]s (sequences of 8-bit
      characters); decoded JSON documents are values of [json], objects
      being finite maps from keys to values.
    - [time.time()] is an input: every clock reading a function performs is
      an explicit [float] argument, in the order the source reads the clock.
    - [secrets.token_bytes] is an input as well.
    - A Python object that is shared by reference (the [Session] held both
      by the manager's table and by [request.state]) lives in the manager's
      table and is referred to by its key.
    - An exception leaving a function is the outcome [Raise]; state changes
      made before the exception are kept.
    - What the Python runtime, FastMCP, FastAPI and Starlette do outside the
      repository (formatting a value, the tool registry, rendering the body
      of a response, the answer to a request no route takes) is a parameter,
      the record [Runtime].
    - Timestamps are binary64 floating-point numbers, as in Python. *)

From Stdlib Require Import ZArith NArith List String Ascii Bool Lia.
From Stdlib Require Import Floats.PrimFloat.
From stdpp Require Import gmap strings pretty list fin_maps.

Set Warnings "-register-all".
Local Open Scope string_scope.

(** ** Python values *)

Module Py.

(** The result of [json.loads]: [int] and [float] are kept apart as Python
    does, objects are [dict]s keyed by strings. *)
Inductive json : Type :=
| JNull
| JBool (b : bool)
| JInt (z : Z)
| JFloat (f : float)
| JString (s : string)
| JArray (items : list json)
| JObject (fields : gmap string json).

(** A [dict] with string keys. *)
Abbreviation dict := (gmap string json).

(** A dict display [{k1: v1, ...}] with distinct keys. *)
Definition obj (kvs : list (string * json)) : json := JObject (list_to_map kvs).

(** [bool(v)]: the truth value Python gives to a decoded JSON value. *)
Definition truthy (v : json) : bool :=
  match v with
  | JNull => false
  | JBool b => b
  | JInt z => negb (z =? 0)%Z
  | JFloat f => negb (PrimFloat.eqb f PrimFloat.zero)
  | JString s => negb (String.eqb s "")
  | JArray items => match items with [] => false | _ => true end
  | JObject fields => negb (bool_decide (fields = ∅))
  end.

(** [isinstance(v, dict)], [isinstance(v, (dict, list))], [isinstance(v, str)]. *)
Definition is_dict (v : json) : bool :=
  match v with JObject _ => true | _ => false end.

Definition is_dict_or_list (v : json) : bool :=
  match v with JObject _ | JArray _ => true | _ => false end.

Definition is_str (v : json) : bool :=
  match v with JString _ => true | _ => false end.

(** [v is None]. *)
Definition is_none (v : json) : bool :=
  match v with JNull => true | _ => false end.

(** The characters of a value known to be a [str]. *)
Definition str_value (v : json) : string :=
  match v with JString s => s | _ => "" end.

(** [v == s] for a string literal [s]. *)
Definition eq_str (v : json) (s : string) : bool :=
  match v with JString t => String.eqb t s | _ => false end.

(** [d.get(k)]: [None] is Python's [None], which is also what a stored JSON
    [null] reads as. *)
Definition dict_get (k : string) (d : dict) : json :=
  default JNull (d !! k).

(** [d.get(k, dflt)]. *)
Definition dict_get_default (k : string) (dflt : json) (d : dict) : json :=
  default dflt (d !! k).

(** [k in d]. *)
Definition dict_has (k : string) (d : dict) : bool :=
  bool_decide (is_Some (d !! k)).

(** [d.update(e)] for a dict [e]: the entries of [e] win. *)
Definition dict_update (d e : dict) : dict := e ∪ d.

(** [s.startswith(p)]. *)
Definition startswith (s p : string) : bool := String.prefix p s.

(** [sub in s] on strings. *)
Fixpoint contains (sub s : string) : bool :=
  String.prefix sub s ||
  match s with
  | EmptyString => false
  | String _ rest => contains sub rest
  end.

(** What a function call produces: a value, or an exception that leaves it. *)
Inductive outcome (A : Type) : Type :=
| Return (a : A)
| Raise.
Arguments Return {A} a.
Arguments Raise {A}.

End Py.
Import Py.

(** ** Encodings used by the identifier generator

    [hashlib.sha256], [bytes.hex] and [base64.urlsafe_b64encode] of the
    Python standard library, on byte strings. *)

Module Encoding.

Definition bytes_of (s : string) : list N := map N_of_ascii (list_ascii_of_string s).
Definition string_of (cs : list ascii) : string := string_of_list_ascii cs.

(** *** SHA-256 (FIPS 180-4) on 32-bit words held in [N] *)

Definition w32 (x : N) : N := (x mod 2 ^ 32)%N.
Definition add32 (x y : N) : N := w32 (x + y).
Definition rotr (n x : N) : N := N.lor (N.shiftr x n) (w32 (N.shiftl x (32 - n))).
Definition not32 (x : N) : N := N.lxor x 4294967295.
Definition Ch (x y z : N) : N := N.lxor (N.land x y) (N.land (not32 x) z).
Definition Maj (x y z : N) : N :=
  N.lxor (N.lxor (N.land x y) (N.land x z)) (N.land y z).
Definition Sigma0 (x : N) : N := N.lxor (N.lxor (rotr 2 x) (rotr 13 x)) (rotr 22 x).
Definition Sigma1 (x : N) : N := N.lxor (N.lxor (rotr 6 x) (rotr 11 x)) (rotr 25 x).
Definition sigma0 (x : N) : N := N.lxor (N.lxor (rotr 7 x) (rotr 18 x)) (N.shiftr x 3).
Definition sigma1 (x : N) : N := N.lxor (N.lxor (rotr 17 x) (rotr 19 x)) (N.shiftr x 10).

Definition K256 : list N :=
  [1116352408; 1899447441; 3049323471; 3921009573; 961987163; 1508970993;
   2453635748; 2870763221; 3624381080; 310598401; 607225278; 1426881987;
   1925078388; 2162078206; 2614888103; 3248222580; 3835390401; 4022224774;
   264347078; 604807628; 770255983; 1249150122; 1555081692; 1996064986;
   2554220882; 2821834349; 2952996808; 3210313671; 3336571891; 3584528711;
   113926993; 338241895; 666307205; 773529912; 1294757372; 1396182291;
   1695183700; 1986661051; 2177026350; 2456956037; 2730485921; 2820302411;
   3259730800; 3345764771; 3516065817; 3600352804; 4094571909; 275423344;
   430227734; 506948616; 659060556; 883997877; 958139571; 1322822218;
   1537002063; 1747873779; 1955562222; 2024104815; 2227730452; 2361852424;
   2428436474; 2756734187; 3204031479; 3329325298]%N.

(** The eight working variables, also the chaining value. *)
Record regs : Type := Regs {
  ra : N; rb : N; rc : N; rd : N; re : N; rf : N; rg : N; rh : N }.

Definition H256 : regs :=
  Regs 1779033703 3144134277 1013904242 2773480762
       1359893119 2600822924 528734635 1541459225.

(** Message padding: a one bit, zeros up to 56 mod 64, the bit length on
    eight bytes, big endian. *)
Definition be_bytes (width : nat) (x : N) : list N :=
  map (fun i => (N.shiftr x (8 * N.of_nat (width - 1 - i)) mod 256)%N) (seq 0 width).

Definition pad (msg : list N) : list N :=
  let len := length msg in
  let zeros := ((64 - (len + 9) mod 64) mod 64)%nat in
  msg ++ [128%N] ++ repeat 0%N zeros ++ be_bytes 8 (8 * N.of_nat len).

Definition be_word (bs : list N) : N :=
  fold_left (fun acc b => (acc * 256 + b)%N) bs 0%N.

Fixpoint words (n : nat) (bs : list N) : list N :=
  match n with
  | O => []
  | S n' => be_word (firstn 4 bs) :: words n' (skipn 4 bs)
  end.

(** The message schedule: sixteen words of the block, then forty-eight
    derived ones. *)
Definition schedule_step (w : list N) : list N :=
  let t := length w in
  let at_ (k : nat) := nth (t - k) w 0%N in
  w ++ [add32 (add32 (add32 (sigma1 (at_ 2%nat)) (at_ 7%nat)) (sigma0 (at_ 15%nat)))
              (at_ 16%nat)].

Definition schedule (block : list N) : list N :=
  Nat.iter 48 schedule_step (words 16 block).

Definition round (r : regs) (kw : N * N) : regs :=
  let t1 := add32 (add32 (add32 (add32 (rh r) (Sigma1 (re r)))
                                (Ch (re r) (rf r) (rg r))) (fst kw)) (snd kw) in
  let t2 := add32 (Sigma0 (ra r)) (Maj (ra r) (rb r) (rc r)) in
  Regs (add32 t1 t2) (ra r) (rb r) (rc r) (add32 (rd r) t1) (re r) (rf r) (rg r).

Definition compress (h : regs) (block : list N) : regs :=
  let r := fold_left round (combine K256 (schedule block)) h in
  Regs (add32 (ra h) (ra r)) (add32 (rb h) (rb r)) (add32 (rc h) (rc r))
       (add32 (rd h) (rd r)) (add32 (re h) (re r)) (add32 (rf h) (rf r))
       (add32 (rg h) (rg r)) (add32 (rh h) (rh r)).

Fixpoint blocks (n : nat) (h : regs) (bs : list N) : regs :=
  match n with
  | O => h
  | S n' => blocks n' (compress h (firstn 64 bs)) (skipn 64 bs)
  end.

(** [hashlib.sha256(msg).digest()]: thirty-two bytes. *)
Definition sha256 (msg : list N) : list N :=
  let p := pad msg in
  let r := blocks (length p / 64) H256 p in
  concat (map (be_bytes 4) [ra r; rb r; rc r; rd r; re r; rf r; rg r; rh r]).

(** *** Hexadecimal *)

Definition hex_digit (n : N) : ascii :=
  nth (N.to_nat n) (list_ascii_of_string "0123456789abcdef") "0"%char.

(** [bytes.hex()]: two lower-case digits per byte. *)
Definition hex (bs : list N) : list ascii :=
  flat_map (fun b => [hex_digit (N.shiftr b 4); hex_digit (N.land b 15)]) bs.

(** *** URL-safe base 64 *)

Definition b64_alphabet : list ascii :=
  list_ascii_of_string
    "ABCDEFGHIJKLMNOPQRSTUVWXYZabcdefghijklmnopqrstuvwxyz0123456789-_".

Definition b64_char (n : N) : ascii := nth (N.to_nat n) b64_alphabet "A"%char.

(** [base64.urlsafe_b64encode]: three bytes give four characters, the last
    group is completed with [=]. *)
Fixpoint urlsafe_b64encode (bs : list N) : list ascii :=
  match bs with
  | [] => []
  | [b0] =>
      [b64_char (N.shiftr b0 2); b64_char (N.shiftl (N.land b0 3) 4);
       "="%char; "="%char]
  | [b0; b1] =>
      [b64_char (N.shiftr b0 2);
       b64_char (N.lor (N.shiftl (N.land b0 3) 4) (N.shiftr b1 4));
       b64_char (N.shiftl (N.land b1 15) 2); "="%char]
  | b0 :: b1 :: b2 :: rest =>
      b64_char (N.shiftr b0 2)
      :: b64_char (N.lor (N.shiftl (N.land b0 3) 4) (N.shiftr b1 4))
      :: b64_char (N.lor (N.shiftl (N.land b1 15) 2) (N.shiftr b2 6))
      :: b64_char (N.land b2 63)
      :: urlsafe_b64encode rest
  end.

(** [s.rstrip(c)] for a one-character argument. *)
Fixpoint rstrip (c : ascii) (s : list ascii) : list ascii :=
  match s with
  | [] => []
  | x :: rest =>
      match rstrip c rest with
      | [] => if Ascii.eqb x c then [] else [x]
      | kept => x :: kept
      end
  end.

End Encoding.

(** ** session_manager.py *)

(** [class Session]. The three dictionaries are mutable members; the
    transport later rebinds [capabilities] to whatever the client sent. *)
Record Session : Type := {
  session_id : string;
  created_at : float;
  last_accessed : float;
  client_info : dict;
  capabilities : json;
  context : dict;
}.

(** [Session.is_expired], [now] being the value of [time.time()]:
    [now - self.last_accessed > timeout]. *)
Definition is_expired (now : float) (timeout : float) (s : Session) : bool :=
  PrimFloat.ltb timeout (PrimFloat.sub now (last_accessed s)).

(** [Session.update_access_time]. *)
Definition update_access_time (now : float) (s : Session) : Session :=
  {| session_id := session_id s; created_at := created_at s;
     last_accessed := now; client_info := client_info s;
     capabilities := capabilities s; context := context s |}.

(** [class SessionManager]: [sessions] is the table of session objects. *)
Record SessionManager : Type := {
  session_timeout : float;
  cleanup_interval : float;
  sessions : gmap string Session;
  last_cleanup : float;
  manager_created_at : float;
}.

Definition set_sessions (tbl : gmap string Session) (m : SessionManager)
  : SessionManager :=
  {| session_timeout := session_timeout m; cleanup_interval := cleanup_interval m;
     sessions := tbl; last_cleanup := last_cleanup m;
     manager_created_at := manager_created_at m |}.

(** [SessionManager.__init__], both clock readings being [now]'s. *)
Definition new_manager (timeout interval now_cleanup now_created : float)
  : SessionManager :=
  {| session_timeout := timeout; cleanup_interval := interval; sessions := ∅;
     last_cleanup := now_cleanup; manager_created_at := now_created |}.

(** [generate_session_id]: [random_bytes] is [secrets.token_bytes(32)] and
    [timestamp] is [str(time.time())]. The digest is written in hexadecimal,
    the hexadecimal text is encoded in URL-safe base 64 and the padding is
    stripped. *)
Definition generate_session_id (random_bytes timestamp : string) : string :=
  let digest :=
    Encoding.sha256 (Encoding.bytes_of random_bytes ++ Encoding.bytes_of timestamp) in
  let hexdigest := Encoding.hex digest in
  let session_id_bytes := map N_of_ascii hexdigest in
  Encoding.string_of
    (Encoding.rstrip "="%char (Encoding.urlsafe_b64encode session_id_bytes)).

(** [_cleanup_expired_sessions]: [current_time] is the reading that decides
    whether a sweep is due, [scan sid] the reading [is_expired] makes when
    the comprehension reaches the session stored under [sid]. *)
Definition _cleanup_expired_sessions (current_time : float) (scan : string -> float)
    (m : SessionManager) : SessionManager :=
  if PrimFloat.ltb (PrimFloat.sub current_time (last_cleanup m)) (cleanup_interval m)
  then m
  else
    {| session_timeout := session_timeout m; cleanup_interval := cleanup_interval m;
       sessions :=
         filter (fun kv => is_expired (scan kv.1) (session_timeout m) kv.2 = false)
                (sessions m);
       last_cleanup := current_time;
       manager_created_at := manager_created_at m |}.

(** The readings one call of [create_session] takes from the system. *)
Record Entropy : Type := {
  token_bytes : string;        (* secrets.token_bytes(32) *)
  time_text : string;          (* str(time.time()) in generate_session_id *)
  time_created : float;        (* current_time in create_session *)
  time_cleanup : float;        (* current_time in _cleanup_expired_sessions *)
  time_scan : string -> float; (* time.time() in is_expired during the sweep *)
}.

(** [create_session]: [x or {}] on the two optional arguments, the record is
    stored under the fresh identifier, then a sweep is attempted. *)
Definition create_session (e : Entropy) (info : option dict) (caps : option json)
    (m : SessionManager) : Session * SessionManager :=
  let sid := generate_session_id (token_bytes e) (time_text e) in
  let session :=
    {| session_id := sid; created_at := time_created e;
       last_accessed := time_created e;
       client_info := default ∅ info;
       capabilities :=
         match caps with
         | Some c => if truthy c then c else obj []
         | None => obj []
         end;
       context := ∅ |} in
  (session,
   _cleanup_expired_sessions (time_cleanup e) (time_scan e)
     (set_sessions (<[sid := session]> (sessions m)) m)).

(** [get_session]: [t_check] is read by [is_expired], [t_touch] by
    [update_access_time]. *)
Definition get_session (sid : string) (t_check t_touch : float) (m : SessionManager)
  : option Session * SessionManager :=
  if String.eqb sid "" then (None, m)
  else
    match sessions m !! sid with
    | None => (None, m)
    | Some session =>
        if is_expired t_check (session_timeout m) session
        then (None, set_sessions (delete sid (sessions m)) m)
        else
          let session' := update_access_time t_touch session in
          (Some session', set_sessions (<[sid := session']> (sessions m)) m)
    end.

(** [remove_session]. *)
Definition remove_session (sid : string) (m : SessionManager) : bool * SessionManager :=
  match sessions m !! sid with
  | Some _ => (true, set_sessions (delete sid (sessions m)) m)
  | None => (false, m)
  end.

(** [get_session_count]. *)
Definition get_session_count (m : SessionManager) : nat := size (sessions m).

(** ** http_transport.py: the tool registry seen from the transport *)

(** A tool of the FastMCP registry as [tools/list] reads it. *)
Record Tool : Type := {
  tool_name : string;
  tool_description : json;   (* a string or None *)
  tool_parameters : json;    (* a schema or None *)
}.

(** Reading [fastmcp_server._tool_manager._tools]. *)
Inductive tool_listing : Type :=
| Tools (entries : list (string * Tool))
| ToolsUnavailable (reason : string).

(** [tool_manager.call_tool] followed by the conversion of its result to
    text; [ToolFailed] carries [str(e)] of the exception either step raised. *)
Inductive tool_result : Type :=
| ToolText (text : string)
| ToolFailed (reason : string).

(** ** http_transport.py: requests, responses, state *)

(** The body of a request together with what [json.loads] makes of it. *)
Inductive Body : Type :=
| BodyEmpty
| BodyMalformed (reason : string)   (* str(e) of the JSONDecodeError *)
| BodyUnreadable   (* json.loads raised something else: UnicodeDecodeError for
                      bytes that are not text, RecursionError for deep nesting *)
| BodyJson (json_data : json).

(** A Starlette request. Header names are held in lower case, the form in
    which Starlette compares them. *)
Record Request : Type := {
  method : string;
  path : string;
  headers : gmap string string;
  client_host : option string;
  body : Body;
}.

Inductive Payload : Type :=
| NoContent
| JsonContent (content : json)
| EventStream (stream_session : string).  (* _sse_generator(session) *)

Record Response : Type := {
  status_code : Z;
  response_headers : gmap string string;
  payload : Payload;
}.

(** What the Python runtime, FastMCP and FastAPI contribute to a request. *)
Record Runtime : Type := {
  py_str : json -> string;                             (* str(v) in an f-string *)
  update_from_iterable : dict -> json -> outcome unit * dict;
                                      (* d.update(v) for v not a dict, and d after it *)
  registry : tool_listing;
  has_tool : json -> outcome bool;
  call_tool : json -> json -> tool_result;
  renders : json -> bool;
          (* whether JSONResponse can render the content: Starlette calls
             json.dumps(content, allow_nan=False).encode("utf-8") in the
             constructor, which raises on a float that is not finite and on
             a string holding a lone surrogate *)
  unrouted : Request -> Response;
          (* the answer of FastAPI and the CORS layer where no route applies *)
}.

Definition JSONResponse (status : Z) (content : json) : Response :=
  {| status_code := status; response_headers := ∅; payload := JsonContent content |}.

(** FastAPI's answer to a raised [HTTPException]. *)
Definition http_exception (status : Z) (detail : string) : Response :=
  JSONResponse status (obj [("detail", JString detail)]).

Definition set_header (k v : string) (r : Response) : Response :=
  {| status_code := status_code r;
     response_headers := <[k := v]> (response_headers r);
     payload := payload r |}.

(** [class HTTPTransport] and the level of the root logger, which
    [logging/setLevel] writes. A queue is the list of its pending messages,
    oldest first. *)
Record HTTPTransport : Type := {
  session_manager : SessionManager;
  message_queues : gmap string (list json);
  root_log_level : option string;
}.

Definition set_manager (m : SessionManager) (t : HTTPTransport) : HTTPTransport :=
  {| session_manager := m; message_queues := message_queues t;
     root_log_level := root_log_level t |}.

Definition set_queues (q : gmap string (list json)) (t : HTTPTransport)
  : HTTPTransport :=
  {| session_manager := session_manager t; message_queues := q;
     root_log_level := root_log_level t |}.

Definition set_log_level (l : string) (t : HTTPTransport) : HTTPTransport :=
  {| session_manager := session_manager t; message_queues := message_queues t;
     root_log_level := Some l |}.

(** An error reply with an ["id"] member. *)
Definition error_reply (request_id : json) (code : Z) (message : string) : json :=
  obj [("jsonrpc", JString "2.0"); ("id", request_id);
       ("error", obj [("code", JInt code); ("message", JString message)])].

(** An error reply without an ["id"] member. *)
Definition error_notice (code : Z) (message : string) : json :=
  obj [("jsonrpc", JString "2.0");
       ("error", obj [("code", JInt code); ("message", JString message)])].

Definition result_reply (request_id : json) (result : json) : json :=
  obj [("jsonrpc", JString "2.0"); ("id", request_id); ("result", result)].

(** ** HTTPTransport._validate_jsonrpc_request *)

Definition _validate_jsonrpc_request (json_data : json) : option json :=
  match json_data with
  | JObject d =>
      if negb (eq_str (dict_get "jsonrpc" d) "2.0") then
        Some (error_notice (-32600) "Invalid Request: jsonrpc must be '2.0'")
      else
        let method := dict_get "method" d in
        if negb (truthy method) || negb (is_str method) then
          Some (error_notice (-32600)
                  "Invalid Request: method is required and must be a string")
        else if negb (startswith (str_value method) "notifications/")
                && negb (dict_has "id" d)
        then
          Some (error_notice (-32600)
                  "Invalid Request: id is required for non-notification requests")
        else
          let params := dict_get "params" d in
          if negb (is_none params) && negb (is_dict_or_list params) then
            Some (error_reply (dict_get "id" d) (-32600)
                    "Invalid Request: params must be an object or array")
          else None
  | _ => Some (error_notice (-32600) "Invalid Request: must be a JSON object")
  end.

(** ** HTTPTransport._send_sse_message and _cleanup_session_queue *)

(** [Queue.put] on an unbounded [asyncio.Queue] appends and cannot fail. *)
Definition _send_sse_message (sid : string) (message : json) (t : HTTPTransport)
  : HTTPTransport :=
  match message_queues t !! sid with
  | Some pending => set_queues (<[sid := (pending ++ [message])%list]> (message_queues t)) t
  | None => t
  end.

Definition _cleanup_session_queue (sid : string) (t : HTTPTransport) : HTTPTransport :=
  match message_queues t !! sid with
  | Some _ => set_queues (delete sid (message_queues t)) t
  | None => t
  end.

(** ** HTTPTransport._handle_initialize *)

(** The two statements guarded by [if session:]. [session] is the key of
    the bound session object. [update] may raise when the client sent
    something else than an object, and then [capabilities] is not rebound. *)
Definition store_client (rt : Runtime) (session : option string)
    (info caps : json) (m : SessionManager) : outcome unit * SessionManager :=
  match session with
  | None => (Return tt, m)
  | Some sid =>
      match sessions m !! sid with
      | None => (Return tt, m)
      | Some s =>
          let '(updated, merged) :=
            match info with
            | JObject e => (Return tt, dict_update (client_info s) e)
            | _ => update_from_iterable rt (client_info s) info
            end in
          let s' :=
            {| session_id := session_id s; created_at := created_at s;
               last_accessed := last_accessed s; client_info := merged;
               capabilities :=
                 match updated with Return _ => caps | Raise => capabilities s end;
               context := context s |} in
          (updated, set_sessions (<[sid := s']> (sessions m)) m)
      end
  end.

Definition base_capabilities : dict :=
  list_to_map
    [("tools", obj [("listChanged", JBool false)]);
     ("resources", obj []);
     ("prompts", obj []);
     ("logging",
      obj [("supportedLevels",
            JArray [JString "debug"; JString "info"; JString "warning";
                    JString "error"; JString "critical"])])].

Definition negotiate (client_capabilities : dict) : dict :=
  let with_sampling :=
    if truthy (dict_get "sampling" client_capabilities)
    then <["sampling" := obj []]> base_capabilities
    else base_capabilities in
  if truthy (dict_get "experimental" client_capabilities)
  then <["experimental" := obj [("progress", JBool true)]]> with_sampling
  else with_sampling.

Definition _handle_initialize (rt : Runtime) (params request_id : json)
    (session : option string) (t : HTTPTransport) : outcome json * HTTPTransport :=
  match params with
  | JObject p =>
      let client_info := dict_get_default "clientInfo" (obj []) p in
      let client_capabilities := dict_get_default "capabilities" (obj []) p in
      let '(stored, m) :=
        store_client rt session client_info client_capabilities (session_manager t) in
      let t' := set_manager m t in
      match stored, client_capabilities with
      | Return _, JObject caps =>
          (* the log line reads client_info.get('name', 'unknown') *)
          if is_dict client_info then
            (Return
               (result_reply request_id
                  (obj [("protocolVersion", JString "2025-03-26");
                        ("capabilities", JObject (negotiate caps));
                        ("serverInfo",
                         obj [("name", JString "AMD SMI MCP Server");
                              ("version", JString "1.0.0")])])),
             t')
          else (Raise, t')
      | _, _ => (Raise, t')
      end
  | _ => (Raise, t)
  end.

(** ** HTTPTransport._handle_tools_list *)

Definition default_schema : json :=
  obj [("type", JString "object"); ("properties", obj []); ("required", JArray [])].

Definition tool_def (entry : string * Tool) : json :=
  let '(key, tool) := entry in
  obj [("name", JString (tool_name tool));
       ("description",
        if truthy (tool_description tool) then tool_description tool
        else JString ("Execute " ++ key));
       ("inputSchema",
        if truthy (tool_parameters tool) then tool_parameters tool
        else default_schema)].

Definition _handle_tools_list (rt : Runtime) (params request_id : json) : json :=
  match registry rt with
  | Tools entries =>
      result_reply request_id (obj [("tools", JArray (map tool_def entries))])
  | ToolsUnavailable reason =>
      error_reply request_id (-32603) ("Internal server error: " ++ reason)
  end.

(** ** HTTPTransport._handle_tools_call *)

Definition progress (rt : Runtime) (request_id : json) (value : json) : json :=
  obj [("jsonrpc", JString "2.0");
       ("method", JString "notifications/progress");
       ("params",
        obj [("progressToken", JString ("tool_" ++ py_str rt request_id));
             ("value", value)])].

Definition progress_begin (rt : Runtime) (request_id tool : json) : json :=
  progress rt request_id
    (obj [("kind", JString "begin");
          ("title", JString ("Executing " ++ py_str rt tool));
          ("message", JString "Starting tool execution...")]).

Definition progress_end (rt : Runtime) (request_id : json) (message : string) : json :=
  progress rt request_id
    (obj [("kind", JString "end"); ("message", JString message)]).

(** [if session: await self._send_sse_message(session.session_id, message)]. *)
Definition notify (session : option string) (message : json) (t : HTTPTransport)
  : HTTPTransport :=
  match session with
  | Some sid => _send_sse_message sid message t
  | None => t
  end.

Definition _handle_tools_call (rt : Runtime) (params request_id : json)
    (session : option string) (t : HTTPTransport) : outcome json * HTTPTransport :=
  match params with
  | JObject p =>
      let tool := dict_get "name" p in
      let tool_args := dict_get_default "arguments" (obj []) p in
      if negb (truthy tool) then
        (Return (error_reply request_id (-32602) "Tool name is required"), t)
      else
        match has_tool rt tool with
        | Raise => (Raise, t)
        | Return false =>
            (Return (error_reply request_id (-32601)
                       ("Tool '" ++ py_str rt tool ++ "' not found")), t)
        | Return true =>
            let t1 := notify session (progress_begin rt request_id tool) t in
            match call_tool rt tool tool_args with
            | ToolText content_text =>
                (Return
                   (result_reply request_id
                      (obj [("content",
                             JArray [obj [("type", JString "text");
                                          ("text", JString content_text)]])])),
                 notify session
                   (progress_end rt request_id "Tool execution completed") t1)
            | ToolFailed reason =>
                (Return (error_reply request_id (-32603)
                           ("Tool execution failed: " ++ reason)),
                 notify session
                   (progress_end rt request_id ("Tool execution failed: " ++ reason))
                   t1)
            end
        end
  | _ => (Raise, t)
  end.

(** ** The stub handlers and logging/setLevel *)

Definition _handle_resources_list (request_id : json) : json :=
  result_reply request_id (obj [("resources", JArray [])]).

Definition _handle_resources_read (request_id : json) : json :=
  error_reply request_id (-32601) "Resources not implemented".

Definition _handle_prompts_list (request_id : json) : json :=
  result_reply request_id (obj [("prompts", JArray [])]).

Definition _handle_prompts_get (request_id : json) : json :=
  error_reply request_id (-32601) "Prompts not implemented".

Definition logging_levels : list string :=
  ["debug"; "info"; "warning"; "error"; "critical"].

Definition _handle_logging_set_level (rt : Runtime) (params request_id : json)
    (t : HTTPTransport) : outcome json * HTTPTransport :=
  match params with
  | JObject p =>
      let level := dict_get "level" p in
      if is_str level && existsb (String.eqb (str_value level)) logging_levels then
        (Return (result_reply request_id (obj [])), set_log_level (str_value level) t)
      else
        (Return (error_reply request_id (-32602)
                   ("Invalid logging level: " ++ py_str rt level)), t)
  | _ => (Raise, t)
  end.

(** ** HTTPTransport._process_mcp_request *)

(** The reply is [None] for a notification. *)
Definition _process_mcp_request (rt : Runtime) (json_data : json)
    (session : option string) (t : HTTPTransport)
  : outcome (option json) * HTTPTransport :=
  let some (r : outcome json * HTTPTransport) : outcome (option json) * HTTPTransport :=
    (match r.1 with Return reply => Return (Some reply) | Raise => Raise end, r.2) in
  match json_data with
  | JObject d =>
      let method := dict_get "method" d in
      let params := dict_get_default "params" (obj []) d in
      let request_id := dict_get "id" d in
      if eq_str method "initialize" then
        some (_handle_initialize rt params request_id session t)
      else if eq_str method "notifications/initialized" then (Return None, t)
      else if eq_str method "tools/list" then
        (Return (Some (_handle_tools_list rt params request_id)), t)
      else if eq_str method "tools/call" then
        some (_handle_tools_call rt params request_id session t)
      else if eq_str method "resources/list" then
        (Return (Some (_handle_resources_list request_id)), t)
      else if eq_str method "resources/read" then
        (Return (Some (_handle_resources_read request_id)), t)
      else if eq_str method "prompts/list" then
        (Return (Some (_handle_prompts_list request_id)), t)
      else if eq_str method "prompts/get" then
        (Return (Some (_handle_prompts_get request_id)), t)
      else if eq_str method "logging/setLevel" then
        some (_handle_logging_set_level rt params request_id t)
      else
        match method with
        | JString name =>
            if startswith name "notifications/" then (Return None, t)
            else
              (Return (Some (error_reply request_id (-32601)
                               ("Method not found: " ++ name))), t)
        | _ => (Raise, t)
        end
  | _ => (Raise, t)
  end.

(** ** HTTPTransport._handle_mcp_request and _handle_legacy_sse_post *)

(** The answer of the clause [except Exception] that closes the handler. *)
Definition internal_error : Response :=
  JSONResponse 500 (error_notice (-32603) "Internal server error").

(** [return JSONResponse(status_code=status, content=content)] inside the
    [try]: when the content cannot be rendered the constructor raises and the
    handler answers with [internal_error] instead. *)
Definition rendered (rt : Runtime) (status : Z) (content : json) : Response :=
  if renders rt content then JSONResponse status content else internal_error.

(** The two parse-error answers and [internal_error] hold literals of the
    source and the text of a JSONDecodeError, which always render. The
    validator's rejection and the dispatcher's reply can echo values of the
    request. *)
Definition _handle_mcp_request (rt : Runtime) (request : Request)
    (session : option string) (t : HTTPTransport) : Response * HTTPTransport :=
  match body request with
  | BodyEmpty =>
      (JSONResponse 400 (error_notice (-32700) "Parse error: Empty request body"), t)
  | BodyMalformed reason =>
      (JSONResponse 400 (error_notice (-32700) ("Parse error: " ++ reason)), t)
  | BodyUnreadable => (internal_error, t)
  | BodyJson json_data =>
      match _validate_jsonrpc_request json_data with
      | Some validation_error => (rendered rt 400 validation_error, t)
      | None =>
          let '(response_data, t') := _process_mcp_request rt json_data session t in
          match response_data with
          | Return None =>
              ({| status_code := 204; response_headers := ∅; payload := NoContent |},
               t')
          | Return (Some reply) => (rendered rt 200 reply, t')
          | Raise => (internal_error, t')
          end
      end
  end.

(** The legacy POST handler repeats [_handle_mcp_request] line by line. *)
Definition _handle_legacy_sse_post := _handle_mcp_request.

(** ** Client information taken from the connection *)

(** [_extract_client_info_sync] and [_extract_client_info] are the same code. *)
Definition _extract_client_info (request : Request) : dict :=
  let with_agent : dict :=
    match headers request !! "user-agent" with
    | Some user_agent =>
        if String.eqb user_agent "" then ∅ else {[ "user_agent" := JString user_agent ]}
    | None => ∅
    end in
  let with_ip : dict :=
    match client_host request with
    | Some host => <["client_ip" := JString host]> with_agent
    | None => with_agent
    end in
  match headers request !! "origin" with
  | Some origin =>
      if String.eqb origin "" then with_ip else <["origin" := JString origin]> with_ip
  | None => with_ip
  end.

(** ["text/event-stream" in request.headers.get("Accept", "")]. *)
Definition accepts_event_stream (request : Request) : bool :=
  contains "text/event-stream" (default "" (headers request !! "accept")).

(** ** The streaming endpoints, up to the start of the stream

    The generator [_sse_generator] that feeds an open stream is not part of
    this embedding; a response that starts one is [EventStream]. *)

Definition attach_queue (sid : string) (t : HTTPTransport) : HTTPTransport :=
  match message_queues t !! sid with
  | Some _ => t
  | None => set_queues (<[sid := []]> (message_queues t)) t
  end.

Definition stream_headers : gmap string string :=
  list_to_map
    [("Cache-Control", "no-cache"); ("Connection", "keep-alive");
     ("Access-Control-Allow-Origin", "*");
     ("Access-Control-Allow-Headers", "Cache-Control")].

Definition _handle_mcp_get_request (e : Entropy) (request : Request)
    (session : option string) (t : HTTPTransport) : Response * HTTPTransport :=
  if negb (accepts_event_stream request) then
    (http_exception 405
       "Method Not Allowed - GET /mcp requires Accept: text/event-stream", t)
  else
    let '(sid, t1) :=
      match session with
      | Some sid => (sid, t)
      | None =>
          let '(created, m) :=
            create_session e (Some (_extract_client_info request)) None
                           (session_manager t) in
          (session_id created, set_manager m t)
      end in
    ({| status_code := 200;
        response_headers := <["Mcp-Session-Id" := sid]> stream_headers;
        payload := EventStream sid |},
     attach_queue sid t1).

Definition _handle_sse_request (request : Request) (session : option string)
    (t : HTTPTransport) : Response * HTTPTransport :=
  match session with
  | None => (http_exception 400 "Valid session required for SSE", t)
  | Some sid =>
      if negb (accepts_event_stream request) then
        (http_exception 400 "SSE requires Accept: text/event-stream", t)
      else
        ({| status_code := 200; response_headers := stream_headers;
            payload := EventStream sid |},
         attach_queue sid t)
  end.

(** ** HTTPTransport._handle_session_termination *)

Definition _handle_session_termination (request : Request) (t : HTTPTransport)
  : Response * HTTPTransport :=
  match headers request !! "mcp-session-id" with
  | Some sid =>
      if String.eqb sid "" then (http_exception 400 "Missing Mcp-Session-Id header", t)
      else
        let t1 := _cleanup_session_queue sid t in
        let '(removed, m) := remove_session sid (session_manager t1) in
        if removed then
          (JSONResponse 200
             (obj [("jsonrpc", JString "2.0");
                   ("result",
                    obj [("message", JString "Session terminated successfully")])]),
           set_manager m t1)
        else (http_exception 404 "Session not found", set_manager m t1)
  | None => (http_exception 400 "Missing Mcp-Session-Id header", t)
  end.

(** ** The probes *)

Definition health_check (now : float) (t : HTTPTransport) : Response :=
  JSONResponse 200
    (obj [("status", JString "healthy"); ("timestamp", JFloat now);
          ("sessions", JInt (Z.of_nat (get_session_count (session_manager t))))]).

Definition metrics_endpoint (now now' : float) (t : HTTPTransport) : Response :=
  JSONResponse 200
    (obj [("status", JString "ok"); ("timestamp", JFloat now);
          ("sessions", JInt (Z.of_nat (get_session_count (session_manager t))));
          ("uptime",
           JFloat (PrimFloat.sub now' (manager_created_at (session_manager t))))]).

(** ** Routing: what [call_next] reaches *)

(** The clock readings and random bytes one request may consume. *)
Record Clock : Type := {
  entropy : Entropy;     (* for the one session the request may create *)
  time_check : float;    (* get_session in the middleware: is_expired *)
  time_touch : float;    (* get_session in the middleware: update_access_time *)
  time_done : float;     (* update_access_time after call_next *)
  time_probe : float;    (* "timestamp" of a probe *)
  time_uptime : float;   (* "uptime" of /metrics *)
}.

(** The routes registered by [_setup_routes]; [session] is
    [request.state.mcp_session]. Whatever no route takes is answered by the
    framework. The headers the CORS layer adds to a response are not
    recorded. *)
Definition call_next (rt : Runtime) (clk : Clock) (request : Request)
    (session : option string) (t : HTTPTransport) : Response * HTTPTransport :=
  let verb := method request in
  let route := path request in
  if String.eqb verb "POST" && String.eqb route "/mcp" then
    _handle_mcp_request rt request session t
  else if String.eqb verb "GET" && String.eqb route "/mcp" then
    _handle_mcp_get_request (entropy clk) request session t
  else if String.eqb verb "GET" && String.eqb route "/sse" then
    _handle_sse_request request session t
  else if String.eqb verb "POST" && String.eqb route "/sse" then
    _handle_legacy_sse_post rt request session t
  else if String.eqb verb "DELETE" && String.eqb route "/mcp" then
    _handle_session_termination request t
  else if String.eqb verb "GET" && String.eqb route "/health" then
    (health_check (time_probe clk) t, t)
  else if String.eqb verb "GET" && String.eqb route "/metrics" then
    (metrics_endpoint (time_probe clk) (time_uptime clk) t, t)
  else
    (unrouted rt request, t).

(** ** MCPSessionMiddleware *)

Definition _is_legacy_sse_request (request : Request) : bool :=
  String.eqb (method request) "GET"
  && String.eqb (path request) "/sse"
  && accepts_event_stream request
  && negb (bool_decide (is_Some (headers request !! "mcp-session-id"))).

Definition _is_initialization_request (request : Request) : bool :=
  if String.eqb (method request) "GET" then false
  else if negb (bool_decide (is_Some (headers request !! "mcp-session-id"))) then true
  else false.

(** [self.session_manager.create_session(client_info=client_info)] on the
    manager held by the transport. *)
Definition open_session (e : Entropy) (request : Request) (t : HTTPTransport)
  : string * HTTPTransport :=
  let '(session, m) :=
    create_session e (Some (_extract_client_info request)) None (session_manager t) in
  (session_id session, set_manager m t).

(** [session.update_access_time()] on the session object bound under [sid]. *)
Definition touch (now : float) (sid : string) (t : HTTPTransport) : HTTPTransport :=
  set_manager
    (set_sessions (alter (update_access_time now) sid (sessions (session_manager t)))
                  (session_manager t)) t.

(** The branch [if not session_id:] of [dispatch]. *)
Definition missing_session_id (rt : Runtime) (clk : Clock) (request : Request)
    (t : HTTPTransport) : Response * HTTPTransport :=
  if String.eqb (method request) "GET" && String.eqb (path request) "/mcp" then
    if accepts_event_stream request then
      let '(sid, t1) := open_session (entropy clk) request t in
      call_next rt clk request (Some sid) t1
    else
      (JSONResponse 405
         (error_notice (-32600)
            "Method not allowed. Use POST for MCP requests or add Accept: text/event-stream header for SSE."),
       t)
  else
    (JSONResponse 400 (error_notice (-32600) "Missing Mcp-Session-Id header"), t).

Definition dispatch (rt : Runtime) (clk : Clock) (request : Request)
    (t : HTTPTransport) : Response * HTTPTransport :=
  if String.eqb (path request) "/health" || String.eqb (path request) "/metrics" then
    call_next rt clk request None t
  else if String.eqb (path request) "/mcp"
          && negb (existsb (String.eqb (method request)) ["GET"; "POST"; "DELETE"])
  then
    (JSONResponse 405
       (obj [("error", JString "Method not allowed");
             ("allowed_methods",
              JArray [JString "GET"; JString "POST"; JString "DELETE"])]), t)
  else
    if _is_legacy_sse_request request then
      let '(sid, t1) := open_session (entropy clk) request t in
      call_next rt clk request (Some sid) t1
    else if _is_initialization_request request then
      let '(response, t1) := call_next rt clk request None t in
      if (status_code response =? 200)%Z then
        let '(sid, t2) := open_session (entropy clk) request t1 in
        (set_header "Mcp-Session-Id" sid response, t2)
      else (response, t1)
    else
      match headers request !! "mcp-session-id" with
      | Some sid =>
          if String.eqb sid "" then
            missing_session_id rt clk request t
          else
            let '(found, m) :=
              get_session sid (time_check clk) (time_touch clk) (session_manager t) in
            match found with
            | None =>
                (JSONResponse 400
                   (error_notice (-32600) "Invalid or expired session ID"),
                 set_manager m t)
            | Some _ =>
                let '(response, t1) :=
                  call_next rt clk request (Some sid) (set_manager m t) in
                (response, touch (time_done clk) sid t1)
            end
      | None => missing_session_id rt clk request t
      end.

(** ** Statements of the session-store contract *)

(** The contract of a lookup, for a comparison [expired age timeout] that
    says when a record of the given age is past the timeout: an expired
    record is deleted and the lookup finds nothing, any other record is
    returned with its access time refreshed. [t_check] is the clock when
    expiry is tested, [t_touch] the clock when the access time is written. *)
Definition lookup_contract (expired : float -> float -> bool)
    (m : SessionManager) (sid : string) (s : Session) (t_check t_touch : float)
  : Prop :=
  let '(found, m') := get_session sid t_check t_touch m in
  if expired (PrimFloat.sub t_check (last_accessed s)) (session_timeout m)
  then found = None /\ sessions m' = delete sid (sessions m)
  else found = Some (update_access_time t_touch s)
       /\ sessions m' = <[sid := update_access_time t_touch s]> (sessions m).

(** [age >= timeout] and [age > timeout]. *)
Definition at_or_past (age timeout : float) : bool := PrimFloat.leb timeout age.
Definition strictly_past (age timeout : float) : bool := PrimFloat.ltb timeout age.

(** The member [error.code] and [error.message] of a reply. *)
Definition error_member (k : string) (reply : json) : option json :=
  match reply with
  | JObject r =>
      match r !! "error" with
      | Some (JObject e) => e !! k
      | _ => None
      end
  | _ => None
  end.

(** The member [params.value[k]] of a progress notification. *)
Definition progress_value (k : string) (frame : json) : option json :=
  match frame with
  | JObject f =>
      match f !! "params" with
      | Some (JObject ps) =>
          match ps !! "value" with
          | Some (JObject v) => v !! k
          | _ => None
          end
      | _ => None
      end
  | _ => None
  end.

(** The member ["id"] of a reply, if it has one. *)
Definition id_member (reply : json) : option json :=
  match reply with
  | JObject r => r !! "id"
  | _ => None
  end.

(** A manager holding one session last used at time 1000, and the request
    that carries its identifier. *)
Definition session_at_1000 : Session :=
  {| session_id := "s1"; created_at := 1000%float; last_accessed := 1000%float;
     client_info := ∅; capabilities := obj []; context := ∅ |}.

Definition manager_with_s1 : SessionManager :=
  set_sessions {[ "s1" := session_at_1000 ]}
    (new_manager 3600%float 300%float 900%float 900%float).

Definition transport_with_s1 : HTTPTransport :=
  {| session_manager := manager_with_s1; message_queues := ∅;
     root_log_level := None |}.

(** The same transport once a stream is open for the session. *)
Definition streaming_transport : HTTPTransport :=
  attach_queue "s1" transport_with_s1.

Definition post_mcp (hdrs : gmap string string) (json_data : json) : Request :=
  {| method := "POST"; path := "/mcp"; headers := hdrs;
     client_host := Some "127.0.0.1"; body := BodyJson json_data |}.

(** ** Statements of the session-binding rules *)

(** The session a request ends up with: the one its header names, or else
    the one the response announces. *)
Definition bound_or_created (request : Request) (response : Response)
  : option string :=
  match headers request !! "mcp-session-id" with
  | Some sid => Some sid
  | None => response_headers response !! "Mcp-Session-Id"
  end.

(** The rule for initialize as the specification words it: after the
    request, the session it is bound to, or the one created for it, holds
    every entry of the clientInfo object sent in params. *)
Definition initialize_records_client (rt : Runtime) (clk : Clock)
    (request : Request) (t : HTTPTransport) : Prop :=
  forall d p ci : dict,
    body request = BodyJson (JObject d) ->
    d !! "method" = Some (JString "initialize") ->
    d !! "params" = Some (JObject p) ->
    p !! "clientInfo" = Some (JObject ci) ->
    exists sid s,
      bound_or_created request (dispatch rt clk request t).1 = Some sid
      /\ sessions (session_manager (dispatch rt clk request t).2) !! sid = Some s
      /\ forall k v, ci !! k = Some v -> client_info s !! k = Some v.

(** A request rejected as malformed: status 400, no handler has run and no
    session was created, so the transport is as before. *)
Definition rejected_as_malformed (rt : Runtime) (clk : Clock)
    (request : Request) (t : HTTPTransport) : Prop :=
  status_code (dispatch rt clk request t).1 = 400%Z
  /\ (dispatch rt clk request t).2 = t.

(** The JSON-RPC method of a request body. *)
Definition rpc_method (request : Request) : json :=
  match body request with
  | BodyJson (JObject d) => dict_get "method" d
  | _ => JNull
  end.

(** ** Sample data for the closed examples *)

(** The characters the identifier generator may produce. *)
Definition url_safe (c : ascii) : bool :=
  let n := N_of_ascii c in
  ((65 <=? n) && (n <=? 90) || (97 <=? n) && (n <=? 122)
   || (48 <=? n) && (n <=? 57) || (n =? 45) || (n =? 95))%N.

(** [str(v)] on the values the examples format: None, booleans, integers
    and strings. *)
Definition str_of_scalar (v : json) : string :=
  match v with
  | JNull => "None"
  | JBool true => "True"
  | JBool false => "False"
  | JInt z => pretty z
  | JString s => s
  | _ => ""
  end.

(** Rendering of the documents of the examples, whose strings are plain
    text: it fails exactly on a float that is not finite. *)
Fixpoint finite_json (v : json) : bool :=
  match v with
  | JFloat f => PrimFloat.is_finite f
  | JArray items => forallb finite_json items
  | JObject fields =>
      map_fold (fun _ item rest => finite_json item && rest) true fields
  | _ => true
  end.

(** A runtime with an empty tool registry. *)
Definition bare_runtime : Runtime :=
  {| py_str := str_of_scalar;
     update_from_iterable := fun d _ => (Raise, d);
     registry := Tools [];
     has_tool := fun _ => Return false;
     call_tool := fun _ _ => ToolFailed "unknown tool";
     renders := finite_json;
     unrouted := fun _ => http_exception 404 "Not Found" |}.

(** A runtime whose one tool fails with "No AMD GPUs found". *)
Definition failing_runtime : Runtime :=
  {| py_str := str_of_scalar;
     update_from_iterable := fun d _ => (Raise, d);
     registry :=
       Tools [("get_gpu_status",
               {| tool_name := "get_gpu_status"; tool_description := JNull;
                  tool_parameters := JNull |})];
     has_tool := fun name => Return (eq_str name "get_gpu_status");
     call_tool := fun _ _ => ToolFailed "No AMD GPUs found";
     renders := finite_json;
     unrouted := fun _ => http_exception 404 "Not Found" |}.

Definition bytes_0_31 : string :=
  Encoding.string_of (map ascii_of_nat (seq 0 32)).

Definition sample_entropy : Entropy :=
  {| token_bytes := bytes_0_31; time_text := "1000.0";
     time_created := 1000%float; time_cleanup := 1000%float;
     time_scan := fun _ => 1000%float |}.

Definition sample_clock : Clock :=
  {| entropy := sample_entropy; time_check := 1000%float; time_touch := 1000%float;
     time_done := 1000%float; time_probe := 1000%float; time_uptime := 1000%float |}.

(** [HTTPTransport(session_timeout=3600)] started at time 900. *)
Definition fresh_transport : HTTPTransport :=
  {| session_manager := new_manager 3600%float 300%float 900%float 900%float;
     message_queues := ∅; root_log_level := None |}.

(** The envelope of Scenario A of the specification. *)
Definition initialize_envelope : json :=
  obj [("jsonrpc", JString "2.0"); ("id", JInt 1);
       ("method", JString "initialize");
       ("params", obj [("clientInfo", obj [("name", JString "X")])])].

(** Scenario A: first contact with initialize. *)
Definition scenario_A : Request := post_mcp ∅ initialize_envelope.

(** The same envelope sent under the session [s1]. *)
Definition initialize_again : Request :=
  post_mcp {[ "mcp-session-id" := "s1" ]} initialize_envelope.

(** A listing request that carries no session header. *)
Definition list_without_session : Request :=
  post_mcp ∅
    (obj [("jsonrpc", JString "2.0"); ("id", JInt 1);
          ("method", JString "resources/list")]).

(** ** session_manager.py: the remaining operations *)

(** [Session.to_dict]. *)
Definition to_dict (s : Session) : json :=
  obj [("session_id", JString (session_id s));
       ("created_at", JFloat (created_at s));
       ("last_accessed", JFloat (last_accessed s));
       ("client_info", JObject (client_info s));
       ("capabilities", capabilities s);
       ("context", JObject (context s))].

(** [validate_session]: a lookup whose result is only tested. *)
Definition validate_session (sid : string) (t_check t_touch : float)
    (m : SessionManager) : bool * SessionManager :=
  let '(session, m') := get_session sid t_check t_touch m in
  (match session with Some _ => true | None => false end, m').

(** [update_session_context]: after the lookup, [t_update] is the clock
    read by the second [update_access_time]. *)
Definition update_session_context (sid : string) (patch : dict)
    (t_check t_touch t_update : float) (m : SessionManager)
  : bool * SessionManager :=
  let '(session, m') := get_session sid t_check t_touch m in
  match session with
  | None => (false, m')
  | Some s =>
      let s' :=
        {| session_id := session_id s; created_at := created_at s;
           last_accessed := t_update; client_info := client_info s;
           capabilities := capabilities s;
           context := dict_update (context s) patch |} in
      (true, set_sessions (<[sid := s']> (sessions m')) m')
  end.

(** [cleanup_all_sessions]: [scan sid] is the clock [is_expired] reads when
    the comprehension reaches [sid], [now] the clock stored in
    [last_cleanup]; the result is [len(expired_sessions)]. *)
Definition cleanup_all_sessions (now : float) (scan : string -> float)
    (m : SessionManager) : nat * SessionManager :=
  let expired :=
    filter (fun kv => is_expired (scan kv.1) (session_timeout m) kv.2 = true)
           (sessions m) in
  (size expired,
   {| session_timeout := session_timeout m; cleanup_interval := cleanup_interval m;
      sessions :=
        filter (fun kv => is_expired (scan kv.1) (session_timeout m) kv.2 = false)
               (sessions m);
      last_cleanup := now;
      manager_created_at := manager_created_at m |}).

(** [get_all_sessions]: the unexpired sessions, each as [to_dict] gives it. *)
Definition get_all_sessions (scan : string -> float) (m : SessionManager)
  : gmap string json :=
  to_dict <$>
    filter (fun kv => is_expired (scan kv.1) (session_timeout m) kv.2 = false)
           (sessions m).


(** The member [error.code] of the body of a response. *)
Definition response_error_code (r : Response) : option json :=
  match payload r with
  | JsonContent reply => error_member "code" reply
  | _ => None
  end.


(** A runtime whose one tool answers. *)
Definition working_runtime : Runtime :=
  {| py_str := str_of_scalar;
     update_from_iterable := fun d _ => (Raise, d);
     registry :=
       Tools [("get_gpu_status",
               {| tool_name := "get_gpu_status"; tool_description := JNull;
                  tool_parameters := JNull |})];
     has_tool := fun name => Return (eq_str name "get_gpu_status");
     call_tool := fun _ _ => ToolText "GPU 0: healthy";
     renders := finite_json;
     unrouted := fun _ => http_exception 404 "Not Found" |}.

(** A tools/call request under the session [s1]. *)
Definition tools_call_request (name : string) : Request :=
  post_mcp {[ "mcp-session-id" := "s1" ]}
    (obj [("jsonrpc", JString "2.0"); ("id", JInt 2);
          ("method", JString "tools/call");
          ("params", obj [("name", JString name)])]).


(** ** HTTPTransport._sse_generator

    The generator is followed from one resumption to the next. What resumes
    it inside its loop is an input, a [Wakeup]; the dictionaries it hands to
    [json.dumps] are its output. The queue is read under the session's key:
    the embedding follows a stream whose queue is the one registered in
    [message_queues], as it is from the subscription until the entry is
    removed. *)

Definition connection_event (sid : string) : json :=
  obj [("type", JString "connection"); ("session_id", JString sid)].

Definition message_event (now : float) (message : json) : json :=
  obj [("type", JString "message"); ("timestamp", JFloat now); ("data", message)].

Definition heartbeat_event (now : float) (sid : string) : json :=
  obj [("type", JString "heartbeat"); ("timestamp", JFloat now);
       ("session_id", JString sid)].

Definition error_event (now : float) (reason : string) : json :=
  obj [("type", JString "error"); ("timestamp", JFloat now);
       ("message", JString reason)].

(** How [await asyncio.wait_for(message_queue.get(), timeout=30.0)] ends, or
    how the generator is stopped from outside. Each carries the clock
    readings of the code it leads to. *)
Inductive Wakeup : Type :=
| Dequeued (now : float)                  (* the get returned the oldest message *)
| TimedOut (t_check t_touch now : float)  (* asyncio.TimeoutError *)
| Faulted (reason : string) (now : float) (* another Exception, reason = str(e) *)
| Cancelled.                              (* cancellation, or the generator is closed *)

Inductive Stream : Type :=
| Streaming
| Closed.

(** One turn of [while True], with the [except] and [finally] clauses that
    end the stream. A [Dequeued] wakeup of an empty queue cannot occur; the
    step then leaves everything as it is. *)
Definition sse_step (sid : string) (w : Wakeup) (t : HTTPTransport)
  : list json * Stream * HTTPTransport :=
  match w with
  | Dequeued now =>
      match message_queues t !! sid with
      | Some (message :: pending) =>
          ([message_event now message], Streaming,
           set_queues (<[sid := pending]> (message_queues t)) t)
      | _ => ([], Streaming, t)
      end
  | TimedOut t_check t_touch now =>
      let '(session, m) := get_session sid t_check t_touch (session_manager t) in
      match session with
      | None => ([], Closed, _cleanup_session_queue sid (set_manager m t))
      | Some _ => ([heartbeat_event now sid], Streaming, set_manager m t)
      end
  | Faulted reason now => ([error_event now reason], Closed, _cleanup_session_queue sid t)
  | Cancelled => ([], Closed, _cleanup_session_queue sid t)
  end.

(** The loop over the wakeups that reach it; nothing happens once the
    stream is closed. *)
Fixpoint sse_loop (sid : string) (wakeups : list Wakeup) (t : HTTPTransport)
  : list json * Stream * HTTPTransport :=
  match wakeups with
  | [] => ([], Streaming, t)
  | w :: rest =>
      match sse_step sid w t with
      | (events, Closed, t') => (events, Closed, t')
      | (events, Streaming, t') =>
          let '(later, stream, t'') := sse_loop sid rest t' in
          ((events ++ later)%list, stream, t'')
      end
  end.

(** [_sse_generator(session)] for a consumer that resumes it after the
    connection event: the lookup of the queue fails with KeyError when the
    session has none. *)
Definition _sse_generator (sid : string) (wakeups : list Wakeup) (t : HTTPTransport)
  : outcome (list json * Stream * HTTPTransport) :=
  match message_queues t !! sid with
  | None => Raise
  | Some _ =>
      let '(events, stream, t') := sse_loop sid wakeups t in
      Return (connection_event sid :: events, stream, t')
  end.

(** ** HTTPTransport._extract_tool_schema *)

(** The annotation of a parameter as the function tests it: absent, one of
    four classes, a generic alias whose [__origin__] is [list] or [dict], or
    anything else. *)
Inductive Annotation : Type :=
| NoAnnotation | AnnStr | AnnInt | AnnFloat | AnnBool | AnnList | AnnDict | AnnOther.

(** A parameter of [inspect.signature(tool_func)]; the default, when there
    is one, is a value that JSON can hold. *)
Record SigParam : Type := {
  param_name : string;
  param_annotation : Annotation;
  param_default : option json;
}.

Definition schema_type (a : Annotation) : string :=
  match a with
  | AnnInt => "integer"
  | AnnFloat => "number"
  | AnnBool => "boolean"
  | AnnList => "array"
  | AnnDict => "object"
  | NoAnnotation | AnnStr | AnnOther => "string"
  end.

Definition param_info (p : SigParam) : dict :=
  let typed : dict := {[ "type" := JString (schema_type (param_annotation p)) ]} in
  match param_default p with
  | None => typed
  | Some v => <["default" := v]> typed
  end.

Definition has_no_default (p : SigParam) : bool :=
  match param_default p with None => true | Some _ => false end.

Definition _extract_tool_schema (signature : list SigParam) : json :=
  let properties : dict :=
    fold_left (fun acc p => <[param_name p := JObject (param_info p)]> acc)
              signature ∅ in
  let required :=
    map (fun p => JString (param_name p)) (List.filter has_no_default signature) in
  obj [("type", JString "object");
       ("properties", JObject properties);
       ("required", JArray required)].


(** Idle checks that each come before the session expires: [last] is the
    time of the previous access, every triple holds the clock readings of
    one [TimedOut] wakeup. *)
Fixpoint idle_within (timeout last : float) (idles : list (float * float * float))
  : bool :=
  match idles with
  | [] => true
  | (t_check, t_touch, _) :: rest =>
      negb (PrimFloat.ltb timeout (PrimFloat.sub t_check last))
      && idle_within timeout t_touch rest
  end.

Definition idle_wakeup (idle : float * float * float) : Wakeup :=
  TimedOut idle.1.1 idle.1.2 idle.2.

(** The wakeups that end a stream whatever the state. *)
Definition closes (w : Wakeup) : bool :=
  match w with
  | Faulted _ _ | Cancelled => true
  | Dequeued _ | TimedOut _ _ _ => false
  end.

(** * Properties *)

Example sha256_abc :
  Encoding.string_of (Encoding.hex (Encoding.sha256 (Encoding.bytes_of "abc")))
  = "ba7816bf8f01cfea414140de5dae2223b00361a396177a9cb410ff61f20015ad".
Proof. vm_compute. reflexivity. Qed.

Example generate_session_id_sample :
  generate_session_id bytes_0_31 "1000.0"
  = "NWM2MzFlYzBmNDdiZTZhYWYyNmQ4NTkwYTUyNWRjYjM2MzJjNDhlOTI1YTljYjY0Mzg4YTI3MWRiMmI5M2UxMg".
Proof. vm_compute. reflexivity. Qed.

(** ** The event channel map *)

Section Channels.
Variables (sid : string) (message : json) (t : HTTPTransport).

(** C9. Pushing a message for a session that has no channel is a silent
    no-op: the call returns normally (the function has no failing
    outcome), the transport, and with it the channel map, is left exactly
    as it was, and no channel appears for the session. *)
Theorem push_without_channel_is_dropped :
  message_queues t !! sid = None ->
  _send_sse_message sid message t = t
  /\ message_queues (_send_sse_message sid message t) = message_queues t
  /\ message_queues (_send_sse_message sid message t) !! sid = None.
Proof.
  intros Hnone. unfold _send_sse_message. rewrite Hnone. auto.
Qed.

(** With a channel attached the message goes to the back of its queue and
    no other queue is touched. *)
Lemma push_with_channel (pending : list json) :
  message_queues t !! sid = Some pending ->
  message_queues (_send_sse_message sid message t)
  = <[sid := (pending ++ [message])%list]> (message_queues t).
Proof.
  intros Hq. unfold _send_sse_message. rewrite Hq. reflexivity.
Qed.
End Channels.

Lemma push_without_channel_is_dropped_witness :
  message_queues fresh_transport !! "no-such-session" = None
  /\ _send_sse_message "no-such-session" (obj [("n", JInt 1)]) fresh_transport
     = fresh_transport.
Proof.
  split; [reflexivity |].
  apply (push_without_channel_is_dropped "no-such-session" (obj [("n", JInt 1)])
           fresh_transport).
  reflexivity.
Defined.

(** ** Tool invocation *)

Section ToolsCall.
Variable rt : Runtime.

(** A tools/call request whose params are an object that carries no tool
    name (the member is absent, or is the empty string) is answered with the
    invalid-params
    error, code -32602 and message "Tool name is required". The reply does
    not depend on the runtime, so the registry is not consulted; the
    transport (sessions, channel map and queues) is returned unchanged, so
    no progress frame is emitted. The same holds through the dispatcher,
    also when the request has no params member at all. *)
Theorem tools_call_requires_name (p : dict) (request_id : json)
    (session : option string) (t : HTTPTransport) :
  p !! "name" = None \/ p !! "name" = Some (JString "") ->
  _handle_tools_call rt (JObject p) request_id session t
  = (Return (error_reply request_id (-32602) "Tool name is required"), t)
  /\ (forall d : dict,
        d !! "method" = Some (JString "tools/call") ->
        d !! "params" = Some (JObject p) \/ (d !! "params" = None /\ p = ∅) ->
        _process_mcp_request rt (JObject d) session t
        = (Return (Some (error_reply (dict_get "id" d) (-32602)
                           "Tool name is required")), t)).
Proof.
  intros Hname.
  assert (Hfalsy : truthy (dict_get "name" p) = false).
  { unfold dict_get. destruct Hname as [-> | ->]; reflexivity. }
  assert (Hcall : forall rid,
             _handle_tools_call rt (JObject p) rid session t
             = (Return (error_reply rid (-32602) "Tool name is required"), t)).
  { intros rid. unfold _handle_tools_call. rewrite Hfalsy. reflexivity. }
  split; [apply Hcall |].
  intros d Hmethod Hparams.
  assert (Hm : dict_get "method" d = JString "tools/call")
    by (unfold dict_get; rewrite Hmethod; reflexivity).
  assert (Hp : dict_get_default "params" (obj []) d = JObject p).
  { unfold dict_get_default. destruct Hparams as [-> | [-> ->]]; reflexivity. }
  unfold _process_mcp_request. cbv zeta. rewrite Hm, Hp.
  cbn [eq_str String.eqb Ascii.eqb Bool.eqb andb].
  rewrite Hcall. reflexivity.
Qed.
End ToolsCall.

Lemma tools_call_requires_name_witness :
  _handle_tools_call failing_runtime (obj [("arguments", obj [])]) (JInt 7)
    (Some "abc") fresh_transport
  = (Return (error_reply (JInt 7) (-32602) "Tool name is required"), fresh_transport).
Proof.
  apply (tools_call_requires_name failing_runtime
           (list_to_map [("arguments", obj [])]) (JInt 7) (Some "abc")
           fresh_transport).
  left. reflexivity.
Defined.

(** C10. A tools/call request whose params are null passes the validator
    and contains no tool name, but it is not answered with -32602 "Tool name
    is required": the handler reads the name with [params.get] before it
    tests it, so the dispatcher raises and the POST handler answers with
    status 500 and the internal error -32603, whatever the runtime, with the
    transport unchanged. An empty params array behaves the same. The check on
    the name answers only for params that are an object, or missing. *)
Theorem tools_call_null_params_fault (rt : Runtime) (session : option string)
    (t : HTTPTransport) :
  let envelope (params : json) :=
    obj [("jsonrpc", JString "2.0"); ("id", JInt 1);
         ("method", JString "tools/call"); ("params", params)] in
  (_validate_jsonrpc_request (envelope JNull) = None
   /\ _process_mcp_request rt (envelope JNull) session t = (Raise, t)
   /\ _handle_mcp_request rt (post_mcp ∅ (envelope JNull)) session t
      = (internal_error, t))
  /\ (_validate_jsonrpc_request (envelope (JArray [])) = None
      /\ _process_mcp_request rt (envelope (JArray [])) session t = (Raise, t)
      /\ _handle_mcp_request rt (post_mcp ∅ (envelope (JArray []))) session t
         = (internal_error, t))
  /\ status_code internal_error = 500%Z
  /\ error_member "code" (error_notice (-32603) "Internal server error")
     = Some (JInt (-32603)).
Proof.
  cbv zeta. repeat split; reflexivity.
Qed.

(** ** Notifications *)

Section Notifications.
Variable rt : Runtime.

Lemma notification_prefix_head (name : string) :
  startswith name "notifications/" = true ->
  exists rest, name = String "n" rest.
Proof.
  unfold startswith.
  destruct name as [| c rest]; cbn [String.prefix]; [discriminate |].
  destruct (ascii_dec "n" c) as [<- | _]; [eauto | discriminate].
Qed.

Lemma process_notification (d : dict) (name : string) (session : option string)
    (t : HTTPTransport) :
  d !! "method" = Some (JString name) ->
  startswith name "notifications/" = true ->
  _process_mcp_request rt (JObject d) session t = (Return None, t).
Proof.
  intros Hmethod Hprefix.
  assert (Hm : dict_get "method" d = JString name)
    by (unfold dict_get; rewrite Hmethod; reflexivity).
  destruct (notification_prefix_head name Hprefix) as [rest Hname].
  unfold _process_mcp_request. cbv zeta. rewrite Hm, Hprefix.
  rewrite Hname. cbn [eq_str String.eqb Ascii.eqb Bool.eqb andb].
  destruct (String.eqb rest _); reflexivity.
Qed.

(** C8. For a request that the validator accepts and whose method name
    begins with "notifications/", the dispatcher returns the no-response
    sentinel ([None]) without touching the transport, and the POST handler
    turns it into status 204 with an empty body; neither is an error. *)
Theorem notification_gets_no_content (request : Request) (d : dict)
    (name : string) (session : option string) (t : HTTPTransport) :
  body request = BodyJson (JObject d) ->
  _validate_jsonrpc_request (JObject d) = None ->
  d !! "method" = Some (JString name) ->
  startswith name "notifications/" = true ->
  _process_mcp_request rt (JObject d) session t = (Return None, t)
  /\ _handle_mcp_request rt request session t
     = ({| status_code := 204; response_headers := ∅; payload := NoContent |}, t).
Proof.
  intros Hbody Hvalid Hmethod Hprefix.
  pose proof (process_notification d name session t Hmethod Hprefix) as Hnone.
  split; [exact Hnone |].
  unfold _handle_mcp_request. rewrite Hbody, Hvalid, Hnone. reflexivity.
Qed.
End Notifications.

Lemma notification_gets_no_content_witness :
  _handle_mcp_request bare_runtime
    (post_mcp {[ "mcp-session-id" := "s1" ]}
       (obj [("jsonrpc", JString "2.0"); ("method", JString "notifications/initialized")]))
    (Some "s1") transport_with_s1
  = ({| status_code := 204; response_headers := ∅; payload := NoContent |},
     transport_with_s1).
Proof.
  refine (proj2 (notification_gets_no_content bare_runtime _
                   (list_to_map [("jsonrpc", JString "2.0");
                                 ("method", JString "notifications/initialized")])
                   "notifications/initialized" (Some "s1") transport_with_s1
                   _ _ _ _)); reflexivity.
Defined.

(** Scenario D of the specification, through the middleware. *)
Example scenario_D :
  let '(response, _) :=
    dispatch bare_runtime sample_clock
      (post_mcp {[ "mcp-session-id" := "s1" ]}
         (obj [("jsonrpc", JString "2.0");
               ("method", JString "notifications/initialized")]))
      transport_with_s1 in
  status_code response = 204%Z /\ payload response = NoContent.
Proof. vm_compute. split; reflexivity. Qed.

(** ** The request validator *)

(** Every error the validator produces carries the code -32600. *)
Lemma validator_error_code (json_data reply : json) :
  _validate_jsonrpc_request json_data = Some reply ->
  error_member "code" reply = Some (JInt (-32600)).
Proof.
  unfold _validate_jsonrpc_request.
  destruct json_data; try (intros [= <-]; reflexivity).
  repeat match goal with
         | |- context [if ?c then _ else _] => destruct c
         end; intros [= <-]; reflexivity.
Qed.

(** The validator accepts exactly the envelopes that pass its four tests. *)
Lemma validator_accepts (d : dict) :
  _validate_jsonrpc_request (JObject d) = None
  <-> eq_str (dict_get "jsonrpc" d) "2.0" = true
      /\ truthy (dict_get "method" d) = true
      /\ is_str (dict_get "method" d) = true
      /\ (startswith (str_value (dict_get "method" d)) "notifications/" = true
          \/ dict_has "id" d = true)
      /\ (is_none (dict_get "params" d) = true
          \/ is_dict_or_list (dict_get "params" d) = true).
Proof.
  unfold _validate_jsonrpc_request.
  destruct (eq_str (dict_get "jsonrpc" d) "2.0");
    destruct (truthy (dict_get "method" d));
    destruct (is_str (dict_get "method" d));
    destruct (startswith (str_value (dict_get "method" d)) "notifications/");
    destruct (dict_has "id" d);
    destruct (is_none (dict_get "params" d));
    destruct (is_dict_or_list (dict_get "params" d));
    cbn; intuition discriminate.
Qed.

(** A params member of the wrong shape is reported with the request's
    identifier. *)
Lemma validator_echoes_id_for_params (d : dict) (reply : json) :
  _validate_jsonrpc_request (JObject d) = Some reply ->
  is_none (dict_get "params" d) = false ->
  is_dict_or_list (dict_get "params" d) = false ->
  (startswith (str_value (dict_get "method" d)) "notifications/" = true
   \/ dict_has "id" d = true) ->
  eq_str (dict_get "jsonrpc" d) "2.0" = true ->
  truthy (dict_get "method" d) = true ->
  is_str (dict_get "method" d) = true ->
  id_member reply = Some (dict_get "id" d).
Proof.
  intros Hreply Hnone Hshape Hid Hversion Htruthy Hstr.
  unfold _validate_jsonrpc_request in Hreply.
  rewrite Hversion, Htruthy, Hstr, Hnone, Hshape in Hreply.
  cbn [negb orb andb] in Hreply.
  destruct Hid as [Hid | Hid]; rewrite Hid in Hreply;
    cbn [negb orb andb] in Hreply; rewrite ?andb_false_r in Hreply;
    injection Hreply as <-; reflexivity.
Qed.

(** C6. The validator reports a wrong protocol version with the code
    -32600 and a reason, but the reply has no "id" member although the
    envelope carried the identifier 1: the identifier is echoed only by the
    branch that rejects the shape of params. *)
Theorem validator_drops_id_on_version_error :
  let envelope :=
    obj [("jsonrpc", JString "1.0"); ("id", JInt 1); ("method", JString "initialize")] in
  exists reply,
    _validate_jsonrpc_request envelope = Some reply
    /\ id_member envelope = Some (JInt 1)
    /\ error_member "code" reply = Some (JInt (-32600))
    /\ error_member "message" reply
       = Some (JString "Invalid Request: jsonrpc must be '2.0'")
    /\ id_member reply = None.
Proof.
  eexists. split; [reflexivity |]. repeat split; reflexivity.
Qed.

(** ** Session lookup and expiry *)

Section Lookup.
Variables (m : SessionManager) (sid : string) (s : Session).
Hypothesis Hkey : sid <> "".
Hypothesis Hstored : sessions m !! sid = Some s.

Lemma get_session_stored (t_check t_touch : float) :
  get_session sid t_check t_touch m
  = if is_expired t_check (session_timeout m) s
    then (None, set_sessions (delete sid (sessions m)) m)
    else (Some (update_access_time t_touch s),
          set_sessions (<[sid := update_access_time t_touch s]> (sessions m)) m).
Proof.
  unfold get_session.
  destruct (String.eqb_spec sid "") as [Heq | _]; [contradiction |].
  rewrite Hstored. reflexivity.
Qed.

(** C3, as the code has it. A stored session is reported absent, and its
    record deleted, exactly when the clock at the lookup minus the last
    access time is strictly greater than the timeout. In every other
    case, equality included, the record is returned and stays in the
    table with its last access time set to the clock reading taken by the
    refresh. *)
Theorem get_session_expires_strictly_past_timeout (t_check t_touch : float) :
  lookup_contract strictly_past m sid s t_check t_touch
  /\ ((get_session sid t_check t_touch m).1 = None
      <-> PrimFloat.ltb (session_timeout m)
            (PrimFloat.sub t_check (last_accessed s)) = true)
  /\ (forall found,
        (get_session sid t_check t_touch m).1 = Some found ->
        last_accessed found = t_touch
        /\ sessions (get_session sid t_check t_touch m).2 !! sid = Some found).
Proof.
  unfold lookup_contract, strictly_past.
  rewrite get_session_stored. unfold is_expired.
  destruct (PrimFloat.ltb _ _); cbn.
  - split; [auto |]. split; [tauto |]. intros found [=].
  - split; [auto |]. split; [split; discriminate |].
    intros found [= <-]. split; [reflexivity | apply lookup_insert_eq].
Qed.
End Lookup.

Lemma get_session_expires_strictly_past_timeout_witness :
  lookup_contract strictly_past manager_with_s1 "s1" session_at_1000
    4600%float 4600.5%float.
Proof.
  refine (proj1 (get_session_expires_strictly_past_timeout manager_with_s1 "s1"
                   session_at_1000 _ _ 4600%float 4600.5%float)).
  - discriminate.
  - reflexivity.
Defined.

(** C3, as the specification words it, fails when the age of the record is
    exactly the timeout: a session last used at 1000 and looked up at 4600
    with a timeout of 3600 is returned and kept, not deleted. *)
Lemma get_session_keeps_record_at_timeout :
  ~ lookup_contract at_or_past manager_with_s1 "s1" session_at_1000
      4600%float 4600%float.
Proof.
  unfold lookup_contract. vm_compute. intros [Hfound _]. discriminate Hfound.
Qed.

(** ** The identifier generator *)

Section Identifiers.
Import Encoding.

Lemma list_ind3 {A : Type} (P : list A -> Prop) :
  P [] -> (forall a, P [a]) -> (forall a b, P [a; b]) ->
  (forall a b c l, P l -> P (a :: b :: c :: l)) ->
  forall l, P l.
Proof.
  intros H0 H1 H2 Hstep l.
  enough (P l /\ (forall a, P (a :: l)) /\ (forall a b, P (a :: b :: l)))
    by tauto.
  induction l as [| x l (IH0 & IH1 & IH2)]; auto.
Qed.

Lemma b64_char_safe (n : N) : url_safe (b64_char n) = true.
Proof.
  assert (Halphabet : forallb url_safe b64_alphabet = true)
    by (vm_compute; reflexivity).
  rewrite forallb_forall in Halphabet.
  unfold b64_char.
  destruct (nth_in_or_default (N.to_nat n) b64_alphabet "A"%char) as [Hin | ->];
    [apply Halphabet, Hin | reflexivity].
Qed.

Lemma rstrip_keeps_safe (c : ascii) (l : list ascii) :
  url_safe c = true -> rstrip "=" (c :: l) = c :: rstrip "=" l.
Proof.
  intros Hsafe. cbn [rstrip].
  destruct (rstrip "=" l); [| reflexivity].
  destruct (Ascii.eqb_spec c "=") as [-> | _]; [discriminate Hsafe | reflexivity].
Qed.

Lemma rstrip_padding (k : nat) : rstrip "=" (repeat "="%char k) = [].
Proof. induction k as [| k IH]; [reflexivity |]. cbn. rewrite IH. reflexivity. Qed.

(** Without its padding the encoding of [n] bytes has [(4 n + 2) / 3]
    characters, all from the URL-safe alphabet. *)
Lemma urlsafe_b64encode_stripped (bs : list N) :
  Forall (fun c => url_safe c = true) (rstrip "=" (urlsafe_b64encode bs))
  /\ length (rstrip "=" (urlsafe_b64encode bs)) = (4 * length bs + 2) / 3.
Proof.
  induction bs as [| b0 | b0 b1 | b0 b1 b2 rest [IHsafe IHlen]] using list_ind3.
  - split; [constructor | reflexivity].
  - cbn [urlsafe_b64encode].
    rewrite !rstrip_keeps_safe by apply b64_char_safe.
    change (rstrip "=" ["="%char; "="%char]) with (rstrip "=" (repeat "="%char 2)).
    rewrite rstrip_padding.
    split; [repeat constructor; apply b64_char_safe | reflexivity].
  - cbn [urlsafe_b64encode].
    rewrite !rstrip_keeps_safe by apply b64_char_safe.
    change (rstrip "=" ["="%char]) with (rstrip "=" (repeat "="%char 1)).
    rewrite rstrip_padding.
    split; [repeat constructor; apply b64_char_safe | reflexivity].
  - cbn [urlsafe_b64encode].
    rewrite !rstrip_keeps_safe by apply b64_char_safe.
    split; [repeat (constructor; [apply b64_char_safe |]); exact IHsafe |].
    cbn [length]. rewrite IHlen.
    replace (4 * S (S (S (length rest))) + 2)
      with ((4 * length rest + 2) + 4 * 3) by lia.
    rewrite Nat.div_add by lia. lia.
Qed.

Lemma hex_length (bs : list N) : length (hex bs) = 2 * length bs.
Proof.
  induction bs as [| b bs IH]; [reflexivity |].
  change (hex (b :: bs))
    with (hex_digit (N.shiftr b 4) :: hex_digit (N.land b 15) :: hex bs).
  cbn [length]. rewrite IH. lia.
Qed.

Lemma sha256_length (msg : list N) : length (sha256 msg) = 32.
Proof.
  unfold sha256. cbv zeta.
  generalize (blocks (length (pad msg) / 64) H256 (pad msg)).
  reflexivity.
Qed.

Lemma string_of_length (cs : list ascii) : String.length (string_of cs) = length cs.
Proof.
  unfold string_of.
  induction cs as [| c cs IH]; [reflexivity |].
  cbn [string_of_list_ascii String.length length]. rewrite IH. reflexivity.
Qed.

(** C7. Whatever the random bytes and the clock text, the generated
    identifier is made of letters, digits, '-' and '_' only, and it has
    exactly 86 characters, which lies between 20 and 100. *)
Theorem generate_session_id_url_safe (random_bytes timestamp : string) :
  Forall (fun c => url_safe c = true)
         (list_ascii_of_string (generate_session_id random_bytes timestamp))
  /\ String.length (generate_session_id random_bytes timestamp) = 86
  /\ 20 <= String.length (generate_session_id random_bytes timestamp) <= 100.
Proof.
  unfold generate_session_id. cbv zeta.
  set (digest := sha256 _).
  destruct (urlsafe_b64encode_stripped (map N_of_ascii (hex digest)))
    as [Hsafe Hlen].
  assert (Hsize : String.length
                    (string_of (rstrip "=" (urlsafe_b64encode
                                              (map N_of_ascii (hex digest))))) = 86).
  { rewrite string_of_length, Hlen, length_map, hex_length.
    unfold digest. rewrite sha256_length. reflexivity. }
  split; [| split; [exact Hsize | rewrite Hsize; lia]].
  unfold string_of. rewrite list_ascii_of_string_of_list_ascii. exact Hsafe.
Qed.
End Identifiers.

(** ** Failing tools *)

Section ToolFailure.
Variable rt : Runtime.
Variables (p : dict) (request_id : json) (sid : string) (t : HTTPTransport).
Variable reason : string.

Let tool := dict_get "name" p.
Let tool_args := dict_get_default "arguments" (obj []) p.
Let failure := "Tool execution failed: " ++ reason.
Let begin_frame := progress_begin rt request_id tool.
Let end_frame := progress_end rt request_id failure.
Let result := _handle_tools_call rt (JObject p) request_id (Some sid) t.

Hypothesis Hnamed : truthy tool = true.
Hypothesis Hknown : has_tool rt tool = Return true.
Hypothesis Hfails : call_tool rt tool tool_args = ToolFailed reason.

(** C4. When the tool of a tools/call request bound to a session raises,
    the handler returns (it does not raise) the structured error -32603
    whose message carries the failure; the begin frame and then an end
    frame with that same failure message are pushed for the session, so a
    channel attached to the session ends with exactly these two frames;
    the session table is not touched. *)
Theorem failed_tool_call_is_reported :
  result.1 = Return (error_reply request_id (-32603) failure)
  /\ result.2 = _send_sse_message sid end_frame (_send_sse_message sid begin_frame t)
  /\ (forall pending,
        message_queues t !! sid = Some pending ->
        message_queues result.2 !! sid
        = Some (pending ++ [begin_frame; end_frame])%list)
  /\ progress_value "kind" begin_frame = Some (JString "begin")
  /\ progress_value "kind" end_frame = Some (JString "end")
  /\ progress_value "message" end_frame = Some (JString failure)
  /\ session_manager result.2 = session_manager t.
Proof.
  assert (Hresult :
            result = (Return (error_reply request_id (-32603) failure),
                      _send_sse_message sid end_frame
                        (_send_sse_message sid begin_frame t))).
  { subst result. unfold _handle_tools_call.
    fold tool tool_args. rewrite Hnamed, Hknown, Hfails. reflexivity. }
  rewrite Hresult. cbn [fst snd].
  split; [reflexivity |]. split; [reflexivity |].
  split; [| split; [reflexivity | split; [reflexivity | split; [reflexivity |]]]].
  - intros pending Hq.
    unfold _send_sse_message at 2. rewrite Hq.
    unfold _send_sse_message. cbn [message_queues set_queues].
    rewrite lookup_insert_eq. cbn [message_queues set_queues].
    rewrite lookup_insert_eq, <- app_assoc. reflexivity.
  - unfold _send_sse_message.
    destruct (message_queues t !! sid) as [pending |] eqn:Hq; cbn.
    + rewrite lookup_insert_eq. reflexivity.
    + rewrite Hq. reflexivity.
Qed.
End ToolFailure.

Lemma failed_tool_call_is_reported_witness :
  let call :=
    _handle_tools_call failing_runtime (obj [("name", JString "get_gpu_status")])
      (JInt 2) (Some "s1") streaming_transport in
  call.1 = Return (error_reply (JInt 2) (-32603)
                     "Tool execution failed: No AMD GPUs found")
  /\ message_queues call.2 !! "s1"
     = Some [progress_begin failing_runtime (JInt 2) (JString "get_gpu_status");
             progress_end failing_runtime (JInt 2)
               "Tool execution failed: No AMD GPUs found"].
Proof.
  pose proof (failed_tool_call_is_reported failing_runtime
                (list_to_map [("name", JString "get_gpu_status")]) (JInt 2) "s1"
                streaming_transport "No AMD GPUs found"
                eq_refl eq_refl eq_refl) as (Hreply & _ & Hqueue & _).
  split; [exact Hreply | exact (Hqueue [] eq_refl)].
Defined.

(** ** The session table under request handling *)

Section TableDomain.
Variable rt : Runtime.

Lemma store_client_dom (session : option string) (info caps : json)
    (m : SessionManager) :
  dom (sessions (store_client rt session info caps m).2) = dom (sessions m).
Proof.
  unfold store_client.
  destruct session as [sid |]; [| reflexivity].
  destruct (sessions m !! sid) as [s |] eqn:Hs; [| reflexivity].
  destruct (match info with JObject e => _ | _ => _ end) as [updated merged].
  cbn [snd sessions set_sessions].
  apply dom_insert_lookup_L. rewrite Hs. eauto.
Qed.

Lemma handle_initialize_dom (params request_id : json) (session : option string)
    (t : HTTPTransport) :
  dom (sessions (session_manager (_handle_initialize rt params request_id session t).2))
  = dom (sessions (session_manager t)).
Proof.
  unfold _handle_initialize.
  destruct params; try reflexivity.
  pose proof (store_client_dom session
                (dict_get_default "clientInfo" (obj []) fields)
                (dict_get_default "capabilities" (obj []) fields)
                (session_manager t)) as Hdom.
  destruct (store_client _ _ _ _ _) as [stored m]. cbn [snd] in Hdom.
  destruct stored; destruct (dict_get_default "capabilities" (obj []) fields);
    try destruct (is_dict (dict_get_default "clientInfo" (obj []) fields));
    exact Hdom.
Qed.

Lemma send_keeps_manager (sid : string) (message : json) (t : HTTPTransport) :
  session_manager (_send_sse_message sid message t) = session_manager t.
Proof. unfold _send_sse_message. destruct (_ !! _); reflexivity. Qed.

Lemma notify_keeps_manager (session : option string) (message : json)
    (t : HTTPTransport) :
  session_manager (notify session message t) = session_manager t.
Proof. destruct session; [apply send_keeps_manager | reflexivity]. Qed.

Lemma handle_tools_call_keeps_manager (params request_id : json)
    (session : option string) (t : HTTPTransport) :
  session_manager (_handle_tools_call rt params request_id session t).2
  = session_manager t.
Proof.
  unfold _handle_tools_call.
  destruct params; try reflexivity.
  destruct (negb _); [reflexivity |].
  destruct (has_tool rt _) as [[|] |]; try reflexivity.
  destruct (call_tool rt _ _); cbn [snd]; rewrite !notify_keeps_manager; reflexivity.
Qed.

Lemma handle_logging_keeps_manager (params request_id : json) (t : HTTPTransport) :
  session_manager (_handle_logging_set_level rt params request_id t).2
  = session_manager t.
Proof.
  unfold _handle_logging_set_level.
  destruct params; try reflexivity. destruct (_ && _); reflexivity.
Qed.

Lemma process_dom (json_data : json) (session : option string) (t : HTTPTransport) :
  dom (sessions (session_manager (_process_mcp_request rt json_data session t).2))
  = dom (sessions (session_manager t)).
Proof.
  unfold _process_mcp_request.
  destruct json_data; try reflexivity.
  repeat match goal with
         | |- context [if ?c then _ else _] => destruct c
         end; cbn [snd];
    rewrite ?handle_initialize_dom, ?handle_tools_call_keeps_manager,
      ?handle_logging_keeps_manager; try reflexivity.
  destruct (dict_get "method" fields); try reflexivity.
  destruct (startswith _ _); reflexivity.
Qed.

(** A POST handler never adds or removes a session. *)
Lemma handle_mcp_request_dom (request : Request) (session : option string)
    (t : HTTPTransport) :
  dom (sessions (session_manager (_handle_mcp_request rt request session t).2))
  = dom (sessions (session_manager t)).
Proof.
  unfold _handle_mcp_request.
  destruct (body request) as [| reason | | json_data]; try reflexivity.
  destruct (_validate_jsonrpc_request json_data); [reflexivity |].
  pose proof (process_dom json_data session t) as Hdom.
  destruct (_process_mcp_request rt json_data session t) as [[[reply |] |] t'];
    exact Hdom.
Qed.
End TableDomain.

(** ** Requests bound to a session *)

Section Binding.
Variables (rt : Runtime) (clk : Clock) (request : Request) (t : HTTPTransport).
Variables (sid : string) (s : Session).

Hypothesis Hverb : method request = "POST".
Hypothesis Hpath : path request = "/mcp".
Hypothesis Hheader : headers request !! "mcp-session-id" = Some sid.
Hypothesis Hkey : sid <> "".
Hypothesis Hstored : sessions (session_manager t) !! sid = Some s.
Hypothesis Hlive :
  is_expired (time_check clk) (session_timeout (session_manager t)) s = false.

(** The transport the handler sees: the lookup has refreshed the session. *)
Let looked_up : HTTPTransport :=
  set_manager
    (set_sessions (<[sid := update_access_time (time_touch clk) s]>
                     (sessions (session_manager t)))
                  (session_manager t)) t.

Lemma dispatch_bound :
  dispatch rt clk request t
  = ((_handle_mcp_request rt request (Some sid) looked_up).1,
     touch (time_done clk) sid (_handle_mcp_request rt request (Some sid) looked_up).2).
Proof.
  unfold dispatch, _is_legacy_sse_request, _is_initialization_request, call_next.
  rewrite Hverb, Hpath, Hheader.
  cbn [String.eqb Ascii.eqb Bool.eqb andb orb negb existsb].
  rewrite bool_decide_eq_true_2 by eauto. cbn [negb].
  destruct (String.eqb_spec sid "") as [Heq | _]; [contradiction |].
  rewrite (get_session_stored _ _ _ Hkey Hstored), Hlive.
  fold looked_up.
  destruct (_handle_mcp_request rt request (Some sid) looked_up); reflexivity.
Qed.

Lemma dispatch_bound_dom :
  dom (sessions (session_manager (dispatch rt clk request t).2))
  = dom (sessions (session_manager t)).
Proof.
  rewrite dispatch_bound. cbn [snd]. unfold touch.
  cbn [session_manager set_manager sessions set_sessions].
  rewrite dom_alter_L, handle_mcp_request_dom.
  unfold looked_up. cbn [session_manager set_manager sessions set_sessions].
  apply dom_insert_lookup_L. rewrite Hstored. eauto.
Qed.

(** What a repeated initialize leaves under the session's key. *)
Lemma dispatch_bound_initialize (d p ci : dict) :
  body request = BodyJson (JObject d) ->
  _validate_jsonrpc_request (JObject d) = None ->
  d !! "method" = Some (JString "initialize") ->
  d !! "params" = Some (JObject p) ->
  p !! "clientInfo" = Some (JObject ci) ->
  exists s',
    sessions (session_manager (dispatch rt clk request t).2) !! sid = Some s'
    /\ client_info s' = dict_update (client_info s) ci
    /\ session_id s' = session_id s
    /\ created_at s' = created_at s.
Proof.
  intros Hbody Hvalid Hmethod Hparams Hinfo.
  assert (Hm : dict_get "method" d = JString "initialize")
    by (unfold dict_get; rewrite Hmethod; reflexivity).
  assert (Hp : dict_get_default "params" (obj []) d = JObject p)
    by (unfold dict_get_default; rewrite Hparams; reflexivity).
  assert (Hci : dict_get_default "clientInfo" (obj []) p = JObject ci)
    by (unfold dict_get_default; rewrite Hinfo; reflexivity).
  assert (Hseen : sessions (session_manager looked_up) !! sid
                  = Some (update_access_time (time_touch clk) s)).
  { unfold looked_up. cbn [session_manager set_manager sessions set_sessions].
    apply lookup_insert_eq. }
  rewrite dispatch_bound. cbn [snd].
  unfold _handle_mcp_request. rewrite Hbody, Hvalid.
  unfold _process_mcp_request. cbv zeta. rewrite Hm, Hp.
  cbn [eq_str String.eqb Ascii.eqb Bool.eqb andb].
  unfold _handle_initialize. cbv zeta. rewrite Hci.
  unfold store_client. rewrite Hseen.
  set (caps := dict_get_default "capabilities" (obj []) p).
  cbn [fst snd].
  destruct caps; cbn [fst snd is_dict];
    (eexists; split;
     [unfold touch; cbn [session_manager set_manager sessions set_sessions];
      rewrite lookup_alter_eq, lookup_insert_eq; reflexivity
     | repeat split]).
Qed.

(** C5. An initialize request that arrives bound to a live session leaves
    the number of stored sessions, and the set of their identifiers, as it
    was; when the envelope is valid and params carry a clientInfo object,
    the record under the session's key is the old one with that object
    merged into its client information. *)
Theorem initialize_again_keeps_count (d : dict) :
  body request = BodyJson (JObject d) ->
  d !! "method" = Some (JString "initialize") ->
  get_session_count (session_manager (dispatch rt clk request t).2)
  = get_session_count (session_manager t)
  /\ dom (sessions (session_manager (dispatch rt clk request t).2))
     = dom (sessions (session_manager t))
  /\ (forall p ci : dict,
        _validate_jsonrpc_request (JObject d) = None ->
        d !! "params" = Some (JObject p) ->
        p !! "clientInfo" = Some (JObject ci) ->
        exists s',
          sessions (session_manager (dispatch rt clk request t).2) !! sid = Some s'
          /\ client_info s' = dict_update (client_info s) ci
          /\ session_id s' = session_id s
          /\ created_at s' = created_at s).
Proof.
  intros Hbody Hmethod.
  split; [| split; [apply dispatch_bound_dom |]].
  - unfold get_session_count.
    rewrite <- !(size_dom (D := gset string)), dispatch_bound_dom. reflexivity.
  - intros p ci Hvalid Hparams Hinfo.
    exact (dispatch_bound_initialize d p ci Hbody Hvalid Hmethod Hparams Hinfo).
Qed.

(** C2, for a bound session. When a valid initialize request arrives
    bound to a live session, every entry of the clientInfo object in its
    params is in the client information of that session afterwards. *)
Theorem initialize_merges_into_bound_session :
  (forall json_data, body request = BodyJson json_data ->
                     _validate_jsonrpc_request json_data = None) ->
  initialize_records_client rt clk request t.
Proof.
  intros Hvalid d p ci Hbody Hmethod Hparams Hinfo.
  destruct (dispatch_bound_initialize d p ci Hbody (Hvalid _ Hbody)
              Hmethod Hparams Hinfo) as (s' & Hs' & Hmerged & _).
  exists sid, s'. split; [| split; [exact Hs' |]].
  - unfold bound_or_created. rewrite Hheader. reflexivity.
  - intros k v Hk. rewrite Hmerged. unfold dict_update.
    apply lookup_union_Some_l, Hk.
Qed.
End Binding.

Lemma initialize_again_keeps_count_witness :
  get_session_count
    (session_manager
       (dispatch bare_runtime sample_clock initialize_again transport_with_s1).2)
  = get_session_count (session_manager transport_with_s1).
Proof.
  refine (proj1 (initialize_again_keeps_count bare_runtime sample_clock
                   initialize_again transport_with_s1 "s1" session_at_1000
                   _ _ _ _ _ _ _ _ _)); try reflexivity.
  discriminate.
Defined.

Lemma initialize_merges_into_bound_session_witness :
  initialize_records_client bare_runtime sample_clock initialize_again
    transport_with_s1.
Proof.
  apply (initialize_merges_into_bound_session bare_runtime sample_clock
           initialize_again transport_with_s1 "s1" session_at_1000);
    try reflexivity.
  - discriminate.
  - intros json_data [= <-]. reflexivity.
Defined.

(** C2, as the specification words it, fails on first contact: Scenario A
    is answered with status 200 and a new session, but the handler ran
    before the session existed and the session is created from the
    connection only, so the name sent in clientInfo is not in it. *)
Lemma first_contact_drops_client_info :
  ~ initialize_records_client bare_runtime sample_clock scenario_A fresh_transport.
Proof.
  intros Hclaim.
  destruct (Hclaim _ _ (list_to_map [("name", JString "X")])
              eq_refl eq_refl eq_refl eq_refl)
    as (sid & s & Hsid & Hs & Hinfo).
  vm_compute in Hsid. injection Hsid as <-.
  vm_compute in Hs. injection Hs as <-.
  specialize (Hinfo "name" (JString "X") eq_refl).
  vm_compute in Hinfo. discriminate Hinfo.
Qed.

(** Scenario A of the specification. *)
Example scenario_A_served :
  let r := dispatch bare_runtime sample_clock scenario_A fresh_transport in
  status_code r.1 = 200%Z
  /\ response_headers r.1 !! "Mcp-Session-Id"
     = Some (generate_session_id bytes_0_31 "1000.0")
  /\ (client_info <$> sessions (session_manager r.2)
                        !! generate_session_id bytes_0_31 "1000.0")
     = Some {[ "client_ip" := JString "127.0.0.1" ]}.
Proof. vm_compute. repeat split; reflexivity. Qed.

(** Scenario A followed by the same initialize under the identifier it was
    given: still one session, which now knows the client's name. *)
Example initialize_twice :
  let sid := generate_session_id bytes_0_31 "1000.0" in
  let first := dispatch bare_runtime sample_clock scenario_A fresh_transport in
  let second :=
    dispatch bare_runtime sample_clock
      (post_mcp {[ "mcp-session-id" := sid ]} initialize_envelope) first.2 in
  get_session_count (session_manager first.2) = 1
  /\ get_session_count (session_manager second.2) = 1
  /\ status_code second.1 = 200%Z
  /\ (client_info <$> sessions (session_manager second.2) !! sid)
     = Some (list_to_map [("client_ip", JString "127.0.0.1"); ("name", JString "X")]).
Proof. vm_compute. repeat split; reflexivity. Qed.

(** ** Requests without a session header *)

Section Unbound.
Variables (rt : Runtime) (clk : Clock) (request : Request) (t : HTTPTransport).

Hypothesis Hnone : headers request !! "mcp-session-id" = None.
Hypothesis Hhealth : path request <> "/health".
Hypothesis Hmetrics : path request <> "/metrics".
Hypothesis Hallowed :
  path request = "/mcp" ->
  existsb (String.eqb (method request)) ["GET"; "POST"; "DELETE"] = true.

Let handled := call_next rt clk request None t.
Let opened := open_session (entropy clk) request handled.2.

Lemma dispatch_without_header :
  method request <> "GET" ->
  dispatch rt clk request t
  = if (status_code handled.1 =? 200)%Z
    then (set_header "Mcp-Session-Id" opened.1 handled.1, opened.2)
    else handled.
Proof.
  intros Hverb. apply String.eqb_neq in Hverb.
  assert (Hprobe : String.eqb (path request) "/health"
                   || String.eqb (path request) "/metrics" = false).
  { apply orb_false_iff. split; apply String.eqb_neq; assumption. }
  assert (Hverbs : String.eqb (path request) "/mcp"
                   && negb (existsb (String.eqb (method request))
                              ["GET"; "POST"; "DELETE"]) = false).
  { destruct (String.eqb_spec (path request) "/mcp") as [Hmcp | _];
      [rewrite (Hallowed Hmcp) |]; reflexivity. }
  unfold dispatch, _is_legacy_sse_request, _is_initialization_request.
  rewrite Hprobe, Hverbs, Hverb, Hnone.
  rewrite bool_decide_eq_false_2 by (intros [? [=]]).
  cbn [andb negb].
  subst opened. fold handled. destruct handled as [response t1]. cbn [fst snd].
  destruct (status_code response =? 200)%Z; [| reflexivity].
  destruct (open_session (entropy clk) request t1). reflexivity.
Qed.

Lemma dispatch_get_without_header :
  method request = "GET" ->
  accepts_event_stream request = false ->
  dispatch rt clk request t
  = (JSONResponse (if String.eqb (path request) "/mcp" then 405 else 400)
       (error_notice (-32600)
          (if String.eqb (path request) "/mcp"
           then "Method not allowed. Use POST for MCP requests or add Accept: text/event-stream header for SSE."
           else "Missing Mcp-Session-Id header")),
     t).
Proof.
  intros Hverb Haccept.
  assert (Hprobe : String.eqb (path request) "/health"
                   || String.eqb (path request) "/metrics" = false).
  { apply orb_false_iff. split; apply String.eqb_neq; assumption. }
  unfold dispatch, _is_legacy_sse_request, _is_initialization_request,
    missing_session_id.
  rewrite Hprobe, Hverb, Hnone, Haccept.
  cbn [String.eqb Ascii.eqb Bool.eqb andb orb negb existsb].
  rewrite !andb_false_r.
  destruct (String.eqb (path request) "/mcp"); reflexivity.
Qed.

(** C1, as the code has it. A request without a session header that is
    not a GET is always handed to its handler, with no session bound and
    whatever its JSON-RPC method; a session is created afterwards exactly
    when the handler answered 200, and its identifier is put on the
    response. A GET without a session header that does not ask for an
    event stream is refused, 405 on /mcp and 400 elsewhere, with the
    transport unchanged. *)
Theorem request_without_session_header :
  (method request <> "GET" ->
   (status_code handled.1 = 200%Z ->
    dispatch rt clk request t
    = (set_header "Mcp-Session-Id" opened.1 handled.1, opened.2))
   /\ (status_code handled.1 <> 200%Z -> dispatch rt clk request t = handled))
  /\ (method request = "GET" ->
      accepts_event_stream request = false ->
      (dispatch rt clk request t).2 = t
      /\ status_code (dispatch rt clk request t).1
         = if String.eqb (path request) "/mcp" then 405%Z else 400%Z).
Proof.
  split.
  - intros Hverb. rewrite (dispatch_without_header Hverb).
    split; intros Hstatus.
    + rewrite Hstatus. reflexivity.
    + apply Z.eqb_neq in Hstatus. rewrite Hstatus. reflexivity.
  - intros Hverb Haccept. rewrite (dispatch_get_without_header Hverb Haccept).
    split; reflexivity.
Qed.

(** The session made for a first contact holds what the connection tells
    about the client, whatever the body of the request said. *)
Lemma first_contact_session (s : Session) :
  method request <> "GET" ->
  status_code handled.1 = 200%Z ->
  response_headers (dispatch rt clk request t).1 !! "Mcp-Session-Id" = Some opened.1
  /\ (sessions (session_manager (dispatch rt clk request t).2) !! opened.1 = Some s ->
      client_info s = _extract_client_info request).
Proof.
  intros Hverb Hstatus. rewrite (dispatch_without_header Hverb), Hstatus.
  cbn [Z.eqb Pos.eqb fst snd].
  split; [apply lookup_insert_eq |].
  subst opened. unfold open_session, create_session, _cleanup_expired_sessions.
  cbn [fst snd session_id session_manager set_manager sessions set_sessions
         last_cleanup cleanup_interval session_timeout].
  destruct (PrimFloat.ltb _ _);
    cbn [session_manager set_manager sessions set_sessions].
  - rewrite lookup_insert_eq. intros [= <-]. reflexivity.
  - intros [Hs _]%map_lookup_filter_Some.
    rewrite lookup_insert_eq in Hs. injection Hs as <-. reflexivity.
Qed.
End Unbound.

Lemma request_without_session_header_witness :
  dispatch bare_runtime sample_clock list_without_session fresh_transport
  = (set_header "Mcp-Session-Id"
       (open_session sample_entropy list_without_session fresh_transport).1
       (JSONResponse 200 (_handle_resources_list (JInt 1))),
     (open_session sample_entropy list_without_session fresh_transport).2).
Proof.
  refine (proj1 (proj1 (request_without_session_header bare_runtime sample_clock
                          list_without_session fresh_transport _ _ _ _) _) _);
    try reflexivity; discriminate.
Defined.

(** C1, as the specification words it, fails for a request that is not an
    initialization: a POST of resources/list without a session header is not
    rejected. *)
Lemma listing_without_session_is_not_rejected :
  ~ rejected_as_malformed bare_runtime sample_clock list_without_session
      fresh_transport.
Proof.
  unfold rejected_as_malformed. intros [Hstatus _].
  vm_compute in Hstatus. discriminate Hstatus.
Qed.

(** What happens instead: the handler runs and a session is created. *)
Example listing_without_session_is_served :
  let r := dispatch bare_runtime sample_clock list_without_session fresh_transport in
  rpc_method list_without_session = JString "resources/list"
  /\ headers list_without_session !! "mcp-session-id" = None
  /\ status_code r.1 = 200%Z
  /\ payload r.1 = JsonContent (_handle_resources_list (JInt 1))
  /\ get_session_count (session_manager fresh_transport) = 0
  /\ get_session_count (session_manager r.2) = 1.
Proof. vm_compute. repeat split; reflexivity. Qed.

(** ** The session table: removal, lookup, sweeps *)

Lemma set_manager_same (t : HTTPTransport) : set_manager (session_manager t) t = t.
Proof. destruct t. reflexivity. Qed.

Lemma set_sessions_same (m : SessionManager) : set_sessions (sessions m) m = m.
Proof. destruct m. reflexivity. Qed.

Lemma set_queues_same (t : HTTPTransport) : set_queues (message_queues t) t = t.
Proof. destruct t. reflexivity. Qed.

Lemma remove_session_eq (sid : string) (m : SessionManager) :
  remove_session sid m
  = (bool_decide (is_Some (sessions m !! sid)),
     set_sessions (delete sid (sessions m)) m).
Proof.
  unfold remove_session.
  destruct (sessions m !! sid) as [s |] eqn:Hs.
  - rewrite bool_decide_eq_true_2 by eauto. reflexivity.
  - rewrite bool_decide_eq_false_2 by (intros [? [=]]).
    rewrite (delete_id _ _ Hs), set_sessions_same. reflexivity.
Qed.

Lemma get_session_absent (sid : string) (t_check t_touch : float)
    (m : SessionManager) :
  sid = "" \/ sessions m !! sid = None ->
  get_session sid t_check t_touch m = (None, m).
Proof.
  unfold get_session. intros [-> | Hnone]; [reflexivity |].
  destruct (String.eqb sid ""); [reflexivity |]. rewrite Hnone. reflexivity.
Qed.

Lemma cleanup_lookup (now : float) (scan : string -> float) (m : SessionManager)
    (sid : string) (s : Session) :
  sessions (_cleanup_expired_sessions now scan m) !! sid = Some s
  <-> sessions m !! sid = Some s
      /\ (PrimFloat.ltb (PrimFloat.sub now (last_cleanup m)) (cleanup_interval m)
          = true
          \/ is_expired (scan sid) (session_timeout m) s = false).
Proof.
  unfold _cleanup_expired_sessions.
  destruct (PrimFloat.ltb _ _); cbn [sessions]; [tauto |].
  rewrite map_lookup_filter_Some. cbn [fst snd].
  split; [intros [? ?]; auto | intros [? [[=] | ?]]; auto].
Qed.

(** X1. [remove_session] answers whether the identifier was stored; after
    it the identifier is absent, every other record is as before, the count
    drops by one exactly when a record existed, and removing again reports
    that nothing was there. *)
Theorem remove_session_removes_exactly_one (sid : string) (m : SessionManager) :
  (remove_session sid m).1 = bool_decide (is_Some (sessions m !! sid))
  /\ sessions (remove_session sid m).2 !! sid = None
  /\ (forall other, other <> sid ->
        sessions (remove_session sid m).2 !! other = sessions m !! other)
  /\ get_session_count (remove_session sid m).2
       + (if (remove_session sid m).1 then 1 else 0)
     = get_session_count m
  /\ remove_session sid (remove_session sid m).2 = (false, (remove_session sid m).2).
Proof.
  rewrite !remove_session_eq. unfold get_session_count.
  cbn [fst snd sessions set_sessions].
  split; [reflexivity |]. split; [apply lookup_delete_eq |].
  split; [intros other Hne; apply lookup_delete_ne; congruence |].
  split.
  - destruct (sessions m !! sid) as [s |] eqn:Hs.
    + rewrite bool_decide_eq_true_2 by eauto.
      pose proof (map_size_delete sid (sessions m)) as Hsize. rewrite Hs in Hsize.
      assert (size (sessions m) <> 0)
        by (intros H0; apply map_size_empty_inv in H0; rewrite H0 in Hs;
            rewrite lookup_empty in Hs; discriminate).
      lia.
    + rewrite bool_decide_eq_false_2 by (intros [? [=]]).
      rewrite (delete_id _ _ Hs). lia.
  - rewrite lookup_delete_eq, bool_decide_eq_false_2 by (intros [? [=]]).
    rewrite delete_delete_eq. reflexivity.
Qed.

(** X2. A lookup touches at most the record it looks up: every other
    record, the timeout, the sweep interval and the time of the last sweep are
    as before, and the number of records never grows. For the empty
    identifier, and for one that is not stored, nothing changes at all and
    the answer is absent. *)
Theorem get_session_frame (sid : string) (t_check t_touch : float)
    (m : SessionManager) :
  (forall other, other <> sid ->
     sessions (get_session sid t_check t_touch m).2 !! other = sessions m !! other)
  /\ session_timeout (get_session sid t_check t_touch m).2 = session_timeout m
  /\ cleanup_interval (get_session sid t_check t_touch m).2 = cleanup_interval m
  /\ last_cleanup (get_session sid t_check t_touch m).2 = last_cleanup m
  /\ get_session_count (get_session sid t_check t_touch m).2 <= get_session_count m
  /\ (sid = "" \/ sessions m !! sid = None ->
      get_session sid t_check t_touch m = (None, m)).
Proof.
  unfold get_session, get_session_count.
  destruct (String.eqb_spec sid "") as [-> | Hne].
  { repeat split; auto. }
  destruct (sessions m !! sid) as [s |] eqn:Hs.
  2: { repeat split; auto. }
  destruct (is_expired t_check (session_timeout m) s);
    cbn [fst snd sessions set_sessions session_timeout cleanup_interval last_cleanup].
  - split; [intros other Hother; apply lookup_delete_ne; congruence |].
    repeat (split; [reflexivity |]).
    split; [| intros [? | [=]]; contradiction].
    apply map_subseteq_size, delete_subseteq.
  - split; [intros other Hother; apply lookup_insert_ne; congruence |].
    repeat (split; [reflexivity |]).
    split; [| intros [? | [=]]; contradiction].
    rewrite map_size_insert_Some by eauto. lia.
Qed.

(** X3. Liveness is measured from the last access, not from creation: once
    a lookup has refreshed a session at [t_touch], a later lookup at
    [t_check'] finds it again as long as [t_check' - t_touch] is not past the
    timeout, and returns the same record with the newer access time. *)
Theorem refreshed_session_stays_live (m : SessionManager) (sid : string)
    (s : Session) (t_check t_touch t_check' t_touch' : float) :
  sid <> "" ->
  sessions m !! sid = Some s ->
  is_expired t_check (session_timeout m) s = false ->
  PrimFloat.ltb (session_timeout m) (PrimFloat.sub t_check' t_touch) = false ->
  (get_session sid t_check' t_touch' (get_session sid t_check t_touch m).2).1
  = Some (update_access_time t_touch' s).
Proof.
  intros Hkey Hstored Hlive Hlater.
  rewrite (get_session_stored m sid s Hkey Hstored t_check t_touch), Hlive.
  cbn [snd].
  rewrite (get_session_stored _ sid (update_access_time t_touch s) Hkey).
  2: { cbn [sessions set_sessions]. apply lookup_insert_eq. }
  unfold is_expired. cbn [session_timeout set_sessions last_accessed update_access_time].
  rewrite Hlater. reflexivity.
Qed.

Lemma refreshed_session_stays_live_witness :
  (get_session "s1" 8000%float 8000%float
     (get_session "s1" 4600%float 4600%float manager_with_s1).2).1
  = Some (update_access_time 8000%float session_at_1000).
Proof.
  apply (refreshed_session_stays_live manager_with_s1 "s1" session_at_1000
           4600%float 4600%float 8000%float 8000%float);
    [discriminate | reflexivity | reflexivity | reflexivity].
Defined.

(** X4. The opportunistic sweep. A record is stored after it exactly when
    it was stored before and either the sweep was not yet due or the record
    was not expired when the sweep examined it; the number of records never
    grows, and a sweep that is not due changes nothing. *)
Theorem cleanup_keeps_unexpired (now : float) (scan : string -> float)
    (m : SessionManager) :
  (forall sid s,
     sessions (_cleanup_expired_sessions now scan m) !! sid = Some s
     <-> sessions m !! sid = Some s
         /\ (PrimFloat.ltb (PrimFloat.sub now (last_cleanup m)) (cleanup_interval m)
             = true
             \/ is_expired (scan sid) (session_timeout m) s = false))
  /\ get_session_count (_cleanup_expired_sessions now scan m) <= get_session_count m
  /\ (PrimFloat.ltb (PrimFloat.sub now (last_cleanup m)) (cleanup_interval m) = true ->
      _cleanup_expired_sessions now scan m = m)
  /\ (PrimFloat.ltb (PrimFloat.sub now (last_cleanup m)) (cleanup_interval m) = false ->
      last_cleanup (_cleanup_expired_sessions now scan m) = now).
Proof.
  split; [intros sid s; apply cleanup_lookup |].
  unfold _cleanup_expired_sessions, get_session_count.
  destruct (PrimFloat.ltb _ _); cbn [sessions last_cleanup].
  - split; [lia |]. split; [reflexivity | discriminate].
  - split; [apply map_subseteq_size, map_filter_subseteq |].
    split; [discriminate | reflexivity].
Qed.


(** ** The session table: creation, context, monitoring *)

Lemma generate_session_id_nonempty (random_bytes timestamp : string) :
  generate_session_id random_bytes timestamp <> "".
Proof.
  assert (Hlen : String.length (generate_session_id random_bytes timestamp) = 86).
  { unfold generate_session_id. cbv zeta.
    rewrite string_of_length.
    rewrite (proj2 (urlsafe_b64encode_stripped _)), length_map, hex_length,
      sha256_length.
    reflexivity. }
  intros Hempty. rewrite Hempty in Hlen. discriminate Hlen.
Qed.

(** [create_session] returns a record whose identifier is the freshly
    generated one, never empty, whose creation and last access times are the
    same clock reading and whose context is empty; missing client
    information becomes the empty dictionary. The record is stored under its
    identifier unless the sweep that follows was due and found it already
    expired, and nothing else can be stored under that identifier. *)
Lemma create_session_stores_fresh_record (e : Entropy) (info : option dict)
    (caps : option json) (m : SessionManager) :
  let created := (create_session e info caps m).1 in
  let m' := (create_session e info caps m).2 in
  session_id created = generate_session_id (token_bytes e) (time_text e)
  /\ session_id created <> ""
  /\ created_at created = time_created e
  /\ last_accessed created = created_at created
  /\ client_info created = default ∅ info
  /\ context created = ∅
  /\ (PrimFloat.ltb (PrimFloat.sub (time_cleanup e) (last_cleanup m))
        (cleanup_interval m) = true
      \/ is_expired (time_scan e (session_id created)) (session_timeout m) created
         = false ->
      sessions m' !! session_id created = Some created)
  /\ (forall s, sessions m' !! session_id created = Some s -> s = created).
Proof.
  cbv zeta. unfold create_session. cbn [fst snd session_id created_at last_accessed
                                          client_info context].
  split; [reflexivity |]. split; [apply generate_session_id_nonempty |].
  repeat (split; [reflexivity |]).
  set (sid := generate_session_id (token_bytes e) (time_text e)).
  set (created := {| session_id := sid |}).
  pose proof (cleanup_lookup (time_cleanup e) (time_scan e)
                (set_sessions (<[sid := created]> (sessions m)) m) sid) as Hkeep.
  cbn [sessions set_sessions last_cleanup cleanup_interval session_timeout] in Hkeep.
  split.
  - intros Hsafe. apply Hkeep. split; [apply lookup_insert_eq | exact Hsafe].
  - intros s [Hs _]%Hkeep. rewrite lookup_insert_eq in Hs. congruence.
Qed.

(** X5. Creating a session and then looking its identifier up returns the
    created record with its access time refreshed, provided the record
    survived the sweep and is not expired at the lookup. *)
Theorem create_then_get (e : Entropy) (info : option dict) (caps : option json)
    (m : SessionManager) (t_check t_touch : float) :
  let created := (create_session e info caps m).1 in
  let m' := (create_session e info caps m).2 in
  PrimFloat.ltb (PrimFloat.sub (time_cleanup e) (last_cleanup m))
    (cleanup_interval m) = true
  \/ is_expired (time_scan e (session_id created)) (session_timeout m) created = false ->
  is_expired t_check (session_timeout m) created = false ->
  (get_session (session_id created) t_check t_touch m').1
  = Some (update_access_time t_touch created).
Proof.
  cbv zeta. intros Hsafe Hlive.
  destruct (create_session_stores_fresh_record e info caps m)
    as (_ & Hne & _ & _ & _ & _ & Hstored & _).
  cbv zeta in Hne, Hstored. specialize (Hstored Hsafe).
  rewrite (get_session_stored _ _ _ Hne Hstored).
  assert (Htimeout : session_timeout (create_session e info caps m).2
                     = session_timeout m).
  { unfold create_session, _cleanup_expired_sessions. cbn [snd].
    destruct (PrimFloat.ltb _ _); reflexivity. }
  rewrite Htimeout, Hlive. reflexivity.
Qed.

Lemma create_then_get_witness :
  (get_session (session_id (create_session sample_entropy None None manager_with_s1).1)
     1200%float 1200%float
     (create_session sample_entropy None None manager_with_s1).2).1
  = Some (update_access_time 1200%float
            (create_session sample_entropy None None manager_with_s1).1).
Proof.
  apply (create_then_get sample_entropy None None manager_with_s1
           1200%float 1200%float); [left | ]; reflexivity.
Defined.

(** X6. On a live session [update_session_context] answers true and merges
    the patch into the context, the entries of the patch winning over the old
    ones; the access time becomes the last clock reading, the rest of the
    record and all other records stay as they were. *)
Theorem update_session_context_merges (m : SessionManager) (sid : string)
    (s : Session) (patch : dict) (t_check t_touch t_update : float) :
  sid <> "" ->
  sessions m !! sid = Some s ->
  is_expired t_check (session_timeout m) s = false ->
  let r := update_session_context sid patch t_check t_touch t_update m in
  r.1 = true
  /\ exists s',
       sessions r.2 !! sid = Some s'
       /\ (forall k, context s' !! k
                     = match patch !! k with
                       | Some v => Some v
                       | None => context s !! k
                       end)
       /\ last_accessed s' = t_update
       /\ session_id s' = session_id s /\ created_at s' = created_at s
       /\ client_info s' = client_info s /\ capabilities s' = capabilities s
       /\ forall other, other <> sid -> sessions r.2 !! other = sessions m !! other.
Proof.
  intros Hkey Hstored Hlive. cbv zeta.
  unfold update_session_context.
  rewrite (get_session_stored m sid s Hkey Hstored), Hlive.
  cbn [fst snd sessions set_sessions session_id created_at client_info capabilities
         context update_access_time].
  split; [reflexivity |]. eexists. split; [apply lookup_insert_eq |].
  cbn [context last_accessed session_id created_at client_info capabilities].
  split.
  { intros k. unfold dict_update. rewrite lookup_union.
    destruct (patch !! k), (context s !! k); reflexivity. }
  repeat (split; [reflexivity |]).
  intros other Hother. rewrite !lookup_insert_ne by congruence. reflexivity.
Qed.

Lemma update_session_context_merges_witness :
  (update_session_context "s1" {[ "gpu" := JInt 0 ]} 1200%float 1200%float
     1201%float manager_with_s1).1 = true.
Proof.
  refine (proj1 (update_session_context_merges manager_with_s1 "s1" session_at_1000
                   {[ "gpu" := JInt 0 ]} 1200%float 1200%float 1201%float _ _ _));
    [discriminate | reflexivity | reflexivity].
Defined.

(** X7. [update_session_context] answers false for the empty identifier,
    for an identifier that is not stored and for an expired session. In the
    first two cases nothing changes; an expired session is deleted by the
    attempt, and its context is not patched. *)
Theorem update_session_context_rejects (m : SessionManager) (sid : string)
    (patch : dict) (t_check t_touch t_update : float) :
  (sid = "" \/ sessions m !! sid = None ->
   update_session_context sid patch t_check t_touch t_update m = (false, m))
  /\ (forall s,
        sid <> "" -> sessions m !! sid = Some s ->
        is_expired t_check (session_timeout m) s = true ->
        update_session_context sid patch t_check t_touch t_update m
        = (false, set_sessions (delete sid (sessions m)) m)).
Proof.
  unfold update_session_context. split.
  - intros Habsent.
    rewrite (get_session_absent sid t_check t_touch m Habsent). reflexivity.
  - intros s Hkey Hstored Hexpired.
    rewrite (get_session_stored m sid s Hkey Hstored), Hexpired. reflexivity.
Qed.

(** [validate_session] is true exactly for a non-empty identifier whose
    record is stored and not expired. It is not a pure test: it changes the
    table as the lookup does, so validating an expired session deletes it. *)
Lemma validate_session_is_a_lookup (m : SessionManager) (sid : string)
    (t_check t_touch : float) :
  ((validate_session sid t_check t_touch m).1 = true
   <-> sid <> ""
       /\ exists s, sessions m !! sid = Some s
                    /\ is_expired t_check (session_timeout m) s = false)
  /\ (validate_session sid t_check t_touch m).2 = (get_session sid t_check t_touch m).2
  /\ (sid <> "" -> (validate_session sid t_check t_touch m).1 = false ->
      sessions (validate_session sid t_check t_touch m).2 !! sid = None).
Proof.
  unfold validate_session, get_session.
  destruct (String.eqb_spec sid "") as [-> | Hne].
  { cbn. split; [split; [discriminate | intros [? _]; contradiction] |].
    split; [reflexivity | contradiction]. }
  destruct (sessions m !! sid) as [s |] eqn:Hs.
  2: { cbn. split; [split; [discriminate | intros (_ & ? & [=] & _)] |].
       split; [reflexivity | intros _ _; exact Hs]. }
  destruct (is_expired t_check (session_timeout m) s) eqn:Hexp;
    cbn [fst snd sessions set_sessions].
  - split; [split; [discriminate | intros (_ & ? & [= <-] & ?); congruence] |].
    split; [reflexivity | intros _ _; apply lookup_delete_eq].
  - split; [split; [intros _; split; [exact Hne | eauto] | reflexivity] |].
    split; [reflexivity | intros _ [=]].
Qed.

(** X8. [cleanup_all_sessions] always sweeps: the number it returns plus
    the number of records left is the number of records before, the records
    left are exactly those not expired when examined, and the time of the
    last sweep is updated. *)
Theorem cleanup_all_sessions_counts (now : float) (scan : string -> float)
    (m : SessionManager) :
  (cleanup_all_sessions now scan m).1
    + get_session_count (cleanup_all_sessions now scan m).2
  = get_session_count m
  /\ (forall sid s,
        sessions (cleanup_all_sessions now scan m).2 !! sid = Some s
        <-> sessions m !! sid = Some s
            /\ is_expired (scan sid) (session_timeout m) s = false)
  /\ last_cleanup (cleanup_all_sessions now scan m).2 = now.
Proof.
  unfold cleanup_all_sessions, get_session_count. cbn [fst snd sessions last_cleanup].
  split; [| split; [| reflexivity]].
  - set (P := fun kv : string * Session =>
                is_expired (scan kv.1) (session_timeout m) kv.2 = true).
    assert (Hsame :
              filter (fun kv : string * Session =>
                        is_expired (scan kv.1) (session_timeout m) kv.2 = false)
                     (sessions m)
              = filter (fun kv => ~ P kv) (sessions m)).
    { apply map_filter_ext. intros sid s _. unfold P. cbn [fst snd].
      destruct (is_expired _ _ _); split; congruence. }
    rewrite Hsame, <- map_size_disj_union
      by apply map_disjoint_filter_complement.
    rewrite map_filter_union_complement. reflexivity.
  - intros sid s. rewrite map_lookup_filter_Some. reflexivity.
Qed.

(** X9. [get_all_sessions] lists exactly the sessions that are not expired
    when examined, each as [to_dict] renders it, so it can list fewer sessions
    than [get_session_count] counts; every rendering carries the identifier
    kept in the record. *)
Theorem get_all_sessions_lists_unexpired (scan : string -> float)
    (m : SessionManager) :
  (forall sid j,
     get_all_sessions scan m !! sid = Some j
     <-> exists s, sessions m !! sid = Some s
                   /\ is_expired (scan sid) (session_timeout m) s = false
                   /\ j = to_dict s)
  /\ size (get_all_sessions scan m) <= get_session_count m
  /\ (forall s, dict_get "session_id" (match to_dict s with
                                        | JObject d => d
                                        | _ => ∅
                                        end) = JString (session_id s)).
Proof.
  unfold get_all_sessions, get_session_count.
  split; [| split].
  - intros sid j. rewrite lookup_fmap_Some.
    split.
    + intros (s & <- & [Hs Hlive]%map_lookup_filter_Some). eauto.
    + intros (s & Hs & Hlive & ->). exists s. split; [reflexivity |].
      apply map_lookup_filter_Some. auto.
  - rewrite map_size_fmap. apply map_subseteq_size, map_filter_subseteq.
  - intros s. reflexivity.
Qed.


(** ** Event channels: order, teardown, subscription *)

Lemma cleanup_session_queue_eq (sid : string) (t : HTTPTransport) :
  _cleanup_session_queue sid t = set_queues (delete sid (message_queues t)) t.
Proof.
  unfold _cleanup_session_queue.
  destruct (message_queues t !! sid) eqn:Hq; [reflexivity |].
  rewrite (delete_id _ _ Hq), set_queues_same. reflexivity.
Qed.

Lemma pushes_queued (sid : string) (messages pending : list json)
    (t : HTTPTransport) :
  message_queues t !! sid = Some pending ->
  fold_left (fun acc message => _send_sse_message sid message acc) messages t
  = set_queues (<[sid := (pending ++ messages)%list]> (message_queues t)) t.
Proof.
  revert pending t.
  induction messages as [| message messages IH]; intros pending t Hq.
  - cbn [fold_left]. rewrite app_nil_r, (insert_id _ _ _ Hq), set_queues_same.
    reflexivity.
  - cbn [fold_left].
    assert (Hpush : _send_sse_message sid message t
                    = set_queues (<[sid := (pending ++ [message])%list]>
                                    (message_queues t)) t)
      by (unfold _send_sse_message; rewrite Hq; reflexivity).
    rewrite Hpush.
    rewrite (IH (pending ++ [message])%list)
      by (cbn [message_queues set_queues]; apply lookup_insert_eq).
    cbn [message_queues set_queues].
    rewrite insert_insert_eq, <- app_assoc.
    destruct t. reflexivity.
Qed.

Lemma pushes_dropped (sid : string) (messages : list json) (t : HTTPTransport) :
  message_queues t !! sid = None ->
  fold_left (fun acc message => _send_sse_message sid message acc) messages t = t.
Proof.
  intros Hq. induction messages as [| message messages IH]; [reflexivity |].
  cbn [fold_left]. unfold _send_sse_message at 2. rewrite Hq. exact IH.
Qed.

(** X10. Messages pushed one after the other for a session are queued
    behind what was pending on its channel, in the order of the pushes; when
    the session has no channel all of them are dropped and none is created.
    No other channel, and nothing else in the transport, changes. *)
Theorem pushes_are_fifo (sid : string) (messages : list json) (t : HTTPTransport) :
  let t' := fold_left (fun acc message => _send_sse_message sid message acc)
                      messages t in
  message_queues t' !! sid
  = (fun pending => (pending ++ messages)%list) <$> message_queues t !! sid
  /\ (forall other, other <> sid ->
        message_queues t' !! other = message_queues t !! other)
  /\ session_manager t' = session_manager t
  /\ root_log_level t' = root_log_level t.
Proof.
  cbv zeta.
  destruct (message_queues t !! sid) as [pending |] eqn:Hq.
  - rewrite (pushes_queued sid messages pending t Hq).
    cbn [message_queues set_queues session_manager root_log_level fmap option_fmap
           option_map].
    split; [apply lookup_insert_eq |].
    split; [intros other Hother; apply lookup_insert_ne; congruence |].
    split; reflexivity.
  - rewrite (pushes_dropped sid messages t Hq), Hq. auto.
Qed.

(** X11. Tearing a channel down removes the session's queue and nothing
    else; doing it again changes nothing, and every message pushed for the
    session afterwards is dropped without recreating the channel. *)
Theorem cleanup_session_queue_detaches (sid : string) (t : HTTPTransport) :
  message_queues (_cleanup_session_queue sid t) !! sid = None
  /\ (forall other, other <> sid ->
        message_queues (_cleanup_session_queue sid t) !! other
        = message_queues t !! other)
  /\ session_manager (_cleanup_session_queue sid t) = session_manager t
  /\ _cleanup_session_queue sid (_cleanup_session_queue sid t)
     = _cleanup_session_queue sid t
  /\ (forall message,
        _send_sse_message sid message (_cleanup_session_queue sid t)
        = _cleanup_session_queue sid t).
Proof.
  assert (Hgone : message_queues (_cleanup_session_queue sid t) !! sid = None)
    by (rewrite cleanup_session_queue_eq; apply lookup_delete_eq).
  split; [exact Hgone |]. split; [| split; [| split]].
  - intros other Hother. rewrite cleanup_session_queue_eq.
    apply lookup_delete_ne. congruence.
  - rewrite cleanup_session_queue_eq. reflexivity.
  - unfold _cleanup_session_queue at 1. rewrite Hgone. reflexivity.
  - intros message. unfold _send_sse_message. rewrite Hgone. reflexivity.
Qed.

(** The legacy stream endpoint refuses a request that has no session
    or does not accept an event stream, with status 400 and no change.
    Otherwise it answers 200 with a stream for the session and makes sure the
    session has a queue: an existing queue keeps its pending messages, a
    missing one is created empty. The session identifier is not put on the
    response, and sessions are not touched. *)
Lemma handle_sse_request_attaches (request : Request) (session : option string)
    (t : HTTPTransport) :
  let r := _handle_sse_request request session t in
  match session with
  | Some sid =>
      if accepts_event_stream request then
        status_code r.1 = 200%Z
        /\ payload r.1 = EventStream sid
        /\ response_headers r.1 !! "Mcp-Session-Id" = None
        /\ message_queues r.2 !! sid = Some (default [] (message_queues t !! sid))
        /\ (forall other, other <> sid ->
              message_queues r.2 !! other = message_queues t !! other)
        /\ session_manager r.2 = session_manager t
      else status_code r.1 = 400%Z /\ r.2 = t
  | None => status_code r.1 = 400%Z /\ r.2 = t
  end.
Proof.
  cbv zeta. unfold _handle_sse_request.
  destruct session as [sid |]; [| split; reflexivity].
  destruct (accepts_event_stream request); cbn [negb fst snd];
    [| split; reflexivity].
  unfold attach_queue.
  destruct (message_queues t !! sid) as [pending |] eqn:Hq;
    cbn [status_code payload response_headers message_queues set_queues
           session_manager default].
  - repeat split; auto.
  - split; [reflexivity |]. split; [reflexivity |]. split; [reflexivity |].
    split; [apply lookup_insert_eq |].
    split; [intros other Hother; apply lookup_insert_ne; congruence | reflexivity].
Qed.

(** GET on the unified endpoint: without the event-stream accept
    header the answer is 405 and nothing changes. With it the answer is a
    stream for the bound session, or for a session created on the spot when
    none is bound; the response carries that session's identifier in
    Mcp-Session-Id, and the session has a queue afterwards, pending messages
    kept. *)
Lemma handle_mcp_get_request_streams (e : Entropy) (request : Request)
    (session : option string) (t : HTTPTransport) :
  let r := _handle_mcp_get_request e request session t in
  let sid := match session with
             | Some sid => sid
             | None => generate_session_id (token_bytes e) (time_text e)
             end in
  if accepts_event_stream request then
    status_code r.1 = 200%Z
    /\ payload r.1 = EventStream sid
    /\ response_headers r.1 !! "Mcp-Session-Id" = Some sid
    /\ message_queues r.2 !! sid = Some (default [] (message_queues t !! sid))
    /\ session_manager r.2
       = match session with
         | Some _ => session_manager t
         | None => (create_session e (Some (_extract_client_info request)) None
                      (session_manager t)).2
         end
  else status_code r.1 = 405%Z /\ r.2 = t.
Proof.
  cbv zeta. unfold _handle_mcp_get_request.
  destruct (accepts_event_stream request); cbn [negb]; [| split; reflexivity].
  assert (Hattach : forall sid t0,
             message_queues (attach_queue sid t0) !! sid
             = Some (default [] (message_queues t0 !! sid))
             /\ session_manager (attach_queue sid t0) = session_manager t0).
  { intros sid t0. unfold attach_queue.
    destruct (message_queues t0 !! sid) eqn:Hq; cbn.
    - rewrite Hq. auto.
    - rewrite lookup_insert_eq. auto. }
  destruct session as [sid |].
  - cbn [fst snd status_code payload response_headers].
    destruct (Hattach sid t) as [Hq Hm].
    split; [reflexivity |]. split; [reflexivity |].
    split; [apply lookup_insert_eq |]. split; assumption.
  - destruct (create_session e _ None (session_manager t)) as [created m] eqn:Hc.
    cbn [fst snd status_code payload response_headers].
    assert (Hid : session_id created
                  = generate_session_id (token_bytes e) (time_text e)).
    { unfold create_session in Hc. injection Hc as <- _. reflexivity. }
    rewrite Hid.
    destruct (Hattach (generate_session_id (token_bytes e) (time_text e))
                (set_manager m t)) as [Hq Hm].
    split; [reflexivity |]. split; [reflexivity |].
    split; [apply lookup_insert_eq |]. split; assumption.
Qed.

Lemma termination_with_header (request : Request) (t : HTTPTransport)
    (sid : string) :
  headers request !! "mcp-session-id" = Some sid -> sid <> "" ->
  status_code (_handle_session_termination request t).1
  = (if bool_decide (is_Some (sessions (session_manager t) !! sid))
     then 200%Z else 404%Z)
  /\ (_handle_session_termination request t).2
     = set_manager
         (set_sessions (delete sid (sessions (session_manager t))) (session_manager t))
         (set_queues (delete sid (message_queues t)) t).
Proof.
  intros Hheader Hkey. unfold _handle_session_termination. rewrite Hheader.
  destruct (String.eqb_spec sid "") as [Heq | _]; [contradiction |].
  rewrite remove_session_eq, cleanup_session_queue_eq.
  cbn [session_manager set_queues].
  destruct (bool_decide _); split; reflexivity.
Qed.

(** X12. Explicit termination. Without a usable Mcp-Session-Id header the
    answer is 400 and nothing changes. With one, the session's queue is
    removed in every case; if the session was stored it is deleted, the count
    drops by one and the answer is 200, otherwise the answer is 404. No other
    session or queue is affected. *)
Theorem handle_session_termination_removes (request : Request) (t : HTTPTransport) :
  let r := _handle_session_termination request t in
  match headers request !! "mcp-session-id" with
  | Some sid =>
      if String.eqb sid "" then status_code r.1 = 400%Z /\ r.2 = t
      else
        status_code r.1
        = (if bool_decide (is_Some (sessions (session_manager t) !! sid))
           then 200%Z else 404%Z)
        /\ sessions (session_manager r.2) !! sid = None
        /\ message_queues r.2 !! sid = None
        /\ (forall other, other <> sid ->
              sessions (session_manager r.2) !! other
              = sessions (session_manager t) !! other
              /\ message_queues r.2 !! other = message_queues t !! other)
  | None => status_code r.1 = 400%Z /\ r.2 = t
  end.
Proof.
  cbv zeta.
  destruct (headers request !! "mcp-session-id") as [sid |] eqn:Hheader.
  2: { unfold _handle_session_termination. rewrite Hheader. split; reflexivity. }
  destruct (String.eqb_spec sid "") as [-> | Hkey].
  { unfold _handle_session_termination. rewrite Hheader. split; reflexivity. }
  destruct (termination_with_header request t sid Hheader Hkey) as [Hstatus Hstate].
  rewrite Hstatus, Hstate.
  cbn [session_manager set_manager sessions set_sessions message_queues set_queues].
  split; [reflexivity |].
  split; [apply lookup_delete_eq |]. split; [apply lookup_delete_eq |].
  intros other Hother. split; apply lookup_delete_ne; congruence.
Qed.


(** ** The middleware: requests that name a session *)

Section Headed.
Variables (rt : Runtime) (clk : Clock) (request : Request) (t : HTTPTransport).
Variable sid : string.

Hypothesis Hheader : headers request !! "mcp-session-id" = Some sid.
Hypothesis Hkey : sid <> "".
Hypothesis Hhealth : path request <> "/health".
Hypothesis Hmetrics : path request <> "/metrics".
Hypothesis Hallowed :
  path request = "/mcp" ->
  existsb (String.eqb (method request)) ["GET"; "POST"; "DELETE"] = true.

Let looked_up := get_session sid (time_check clk) (time_touch clk) (session_manager t).

Lemma dispatch_with_header :
  dispatch rt clk request t
  = match looked_up.1 with
    | None =>
        (JSONResponse 400 (error_notice (-32600) "Invalid or expired session ID"),
         set_manager looked_up.2 t)
    | Some _ =>
        ((call_next rt clk request (Some sid) (set_manager looked_up.2 t)).1,
         touch (time_done clk) sid
           (call_next rt clk request (Some sid) (set_manager looked_up.2 t)).2)
    end.
Proof.
  assert (Hprobe : String.eqb (path request) "/health"
                   || String.eqb (path request) "/metrics" = false).
  { apply orb_false_iff. split; apply String.eqb_neq; assumption. }
  assert (Hverbs : String.eqb (path request) "/mcp"
                   && negb (existsb (String.eqb (method request))
                              ["GET"; "POST"; "DELETE"]) = false).
  { destruct (String.eqb_spec (path request) "/mcp") as [Hmcp | _];
      [rewrite (Hallowed Hmcp) |]; reflexivity. }
  unfold dispatch, _is_legacy_sse_request, _is_initialization_request.
  rewrite Hprobe, Hverbs, Hheader.
  rewrite bool_decide_eq_true_2 by eauto. cbn [negb].
  rewrite andb_false_r.
  assert (Hinit : (if String.eqb (method request) "GET" then false else false) = false)
    by (destruct (String.eqb (method request) "GET"); reflexivity).
  rewrite Hinit.
  destruct (String.eqb_spec sid "") as [Heq | _]; [contradiction |].
  subst looked_up.
  destruct (get_session sid (time_check clk) (time_touch clk) (session_manager t))
    as [[found |] m]; cbn [fst snd]; [| reflexivity].
  destruct (call_next rt clk request (Some sid) (set_manager m t)). reflexivity.
Qed.

(** X13. A request that reaches the session logic (its path is neither
    /health nor /metrics, and on /mcp its verb is GET, POST or DELETE) and
    whose Mcp-Session-Id header is not empty and names no live session is
    refused before any handler runs, whatever its body: status 400, code
    -32600, message "Invalid or expired session ID". For an unknown
    identifier the transport is unchanged; an expired session is deleted by
    the attempt; the queues are not touched. *)
Theorem dispatch_rejects_stale_session :
  looked_up.1 = None ->
  dispatch rt clk request t
  = (JSONResponse 400 (error_notice (-32600) "Invalid or expired session ID"),
     set_manager looked_up.2 t)
  /\ sessions (session_manager (dispatch rt clk request t).2) !! sid = None
  /\ message_queues (dispatch rt clk request t).2 = message_queues t
  /\ (sessions (session_manager t) !! sid = None ->
      (dispatch rt clk request t).2 = t).
Proof.
  intros Hnone. rewrite dispatch_with_header, Hnone. cbn [fst snd].
  split; [reflexivity |].
  cbn [session_manager set_manager message_queues].
  split; [| split; [reflexivity |]].
  - subst looked_up. unfold get_session in *.
    destruct (String.eqb_spec sid "") as [Heq | _]; [contradiction |].
    destruct (sessions (session_manager t) !! sid) as [s |] eqn:Hs;
      [| exact Hs].
    destruct (is_expired _ _ s); [apply lookup_delete_eq | discriminate Hnone].
  - intros Habsent. subst looked_up.
    rewrite (get_session_absent sid (time_check clk) (time_touch clk)
               (session_manager t) (or_intror Habsent)).
    apply set_manager_same.
Qed.
End Headed.

Lemma dispatch_rejects_stale_session_witness :
  dispatch bare_runtime sample_clock
    (post_mcp {[ "mcp-session-id" := "unknown" ]}
       (obj [("jsonrpc", JString "2.0"); ("id", JInt 2);
             ("method", JString "tools/list")]))
    transport_with_s1
  = (JSONResponse 400 (error_notice (-32600) "Invalid or expired session ID"),
     transport_with_s1).
Proof.
  refine (proj1 (dispatch_rejects_stale_session bare_runtime sample_clock _
                   transport_with_s1 "unknown" _ _ _ _ _ _));
    try reflexivity; discriminate.
Defined.

Section Termination.
Variables (rt : Runtime) (clk : Clock) (request : Request) (t : HTTPTransport).
Variables (sid : string) (s : Session).

Hypothesis Hverb : method request = "DELETE".
Hypothesis Hpath : path request = "/mcp".
Hypothesis Hheader : headers request !! "mcp-session-id" = Some sid.
Hypothesis Hkey : sid <> "".
Hypothesis Hstored : sessions (session_manager t) !! sid = Some s.
Hypothesis Hlive :
  is_expired (time_check clk) (session_timeout (session_manager t)) s = false.

(** X14. Terminating a live session through the middleware answers 200 and
    removes both the session and its queue; the access-time update the
    middleware performs after the handler does not bring the session back.
    Every later request that still names the session and reaches the session
    logic (its path is neither /health nor /metrics, and on /mcp its verb is
    GET, POST or DELETE) is refused with 400 and changes nothing. *)
Theorem terminated_session_is_gone :
  let r := dispatch rt clk request t in
  status_code r.1 = 200%Z
  /\ sessions (session_manager r.2) !! sid = None
  /\ message_queues r.2 !! sid = None
  /\ get_session_count (session_manager r.2) + 1 = get_session_count (session_manager t)
  /\ (forall clk' request',
        headers request' !! "mcp-session-id" = Some sid ->
        path request' <> "/health" -> path request' <> "/metrics" ->
        (path request' = "/mcp" ->
         existsb (String.eqb (method request')) ["GET"; "POST"; "DELETE"] = true) ->
        dispatch rt clk' request' r.2
        = (JSONResponse 400 (error_notice (-32600) "Invalid or expired session ID"),
           r.2)).
Proof.
  cbv zeta.
  assert (Hdispatch :
            dispatch rt clk request t
            = ((_handle_session_termination request
                  (set_manager
                     (set_sessions
                        (<[sid := update_access_time (time_touch clk) s]>
                           (sessions (session_manager t)))
                        (session_manager t)) t)).1,
               touch (time_done clk) sid
                 (_handle_session_termination request
                    (set_manager
                       (set_sessions
                          (<[sid := update_access_time (time_touch clk) s]>
                             (sessions (session_manager t)))
                          (session_manager t)) t)).2)).
  { rewrite (dispatch_with_header rt clk request t sid Hheader Hkey).
    - rewrite (get_session_stored _ _ _ Hkey Hstored), Hlive. cbn [fst snd].
      unfold call_next. rewrite Hverb, Hpath. reflexivity.
    - rewrite Hpath. discriminate.
    - rewrite Hpath. discriminate.
    - intros _. rewrite Hverb. reflexivity. }
  set (seen := set_manager _ t) in Hdispatch.
  destruct (termination_with_header request seen sid Hheader Hkey)
    as [Hstatus Hstate].
  assert (Hseen : sessions (session_manager seen) !! sid
                  = Some (update_access_time (time_touch clk) s)).
  { subst seen. cbn [session_manager set_manager sessions set_sessions].
    apply lookup_insert_eq. }
  rewrite Hseen, bool_decide_eq_true_2 in Hstatus by eauto.
  assert (Hsessions :
            sessions (session_manager (dispatch rt clk request t).2)
            = delete sid (sessions (session_manager t))).
  { rewrite Hdispatch. cbn [snd]. rewrite Hstate. unfold touch. subst seen.
    cbn [session_manager set_manager sessions set_sessions set_queues].
    rewrite delete_insert_eq.
    apply map_eq. intros k. destruct (decide (k = sid)) as [-> | Hne].
    - rewrite lookup_alter_eq, lookup_delete_eq. reflexivity.
    - rewrite lookup_alter_ne by congruence. reflexivity. }
  assert (Hgone : sessions (session_manager (dispatch rt clk request t).2) !! sid
                  = None)
    by (rewrite Hsessions; apply lookup_delete_eq).
  split; [rewrite Hdispatch; exact Hstatus |].
  split; [exact Hgone |].
  split.
  { rewrite Hdispatch. cbn [snd]. rewrite Hstate. unfold touch.
    cbn [message_queues set_manager set_queues]. apply lookup_delete_eq. }
  split.
  - unfold get_session_count. rewrite Hsessions.
    pose proof (map_size_delete sid (sessions (session_manager t))) as Hsize.
    rewrite Hstored in Hsize.
    assert (size (sessions (session_manager t)) <> 0).
    { intros H0. apply map_size_empty_inv in H0. rewrite H0 in Hstored.
      rewrite lookup_empty in Hstored. discriminate. }
    lia.
  - intros clk' request' Hheader' Hhealth' Hmetrics' Hallowed'.
    rewrite (dispatch_with_header rt clk' request' _ sid Hheader' Hkey Hhealth'
               Hmetrics' Hallowed').
    rewrite (get_session_absent sid _ _ _ (or_intror Hgone)). cbn [fst snd].
    rewrite set_manager_same. reflexivity.
Qed.
End Termination.

Lemma terminated_session_is_gone_witness :
  sessions
    (session_manager
       (dispatch bare_runtime sample_clock
          {| method := "DELETE"; path := "/mcp";
             headers := {[ "mcp-session-id" := "s1" ]};
             client_host := None; body := BodyEmpty |}
          streaming_transport).2) !! "s1" = None.
Proof.
  refine (proj1 (proj2 (terminated_session_is_gone bare_runtime sample_clock _
                          streaming_transport "s1" session_at_1000
                          _ _ _ _ _ _))); try reflexivity.
  discriminate.
Defined.


(** ** The middleware: requests answered without a session *)

(** X15. Requests answered before any session logic. On the two probe
    paths the transport is never changed, whatever the verb, headers and
    body, and GET /health reports the number of stored sessions; on /mcp a
    verb other than GET, POST and DELETE gets 405 with the transport
    unchanged. In both cases a session named by the request is neither
    refreshed nor, if expired, deleted. *)
Theorem requests_outside_session_logic (rt : Runtime) (clk : Clock)
    (request : Request) (t : HTTPTransport) :
  (path request = "/health" \/ path request = "/metrics" ->
   (dispatch rt clk request t).2 = t)
  /\ (path request = "/health" -> method request = "GET" ->
      (dispatch rt clk request t).1
      = JSONResponse 200
          (obj [("status", JString "healthy");
                ("timestamp", JFloat (time_probe clk));
                ("sessions",
                 JInt (Z.of_nat (get_session_count (session_manager t))))]))
  /\ (path request = "/mcp" ->
      existsb (String.eqb (method request)) ["GET"; "POST"; "DELETE"] = false ->
      status_code (dispatch rt clk request t).1 = 405%Z
      /\ (dispatch rt clk request t).2 = t).
Proof.
  split; [| split].
  - intros Hprobe. unfold dispatch.
    assert (Hp : String.eqb (path request) "/health"
                 || String.eqb (path request) "/metrics" = true)
      by (destruct Hprobe as [-> | ->]; reflexivity).
    rewrite Hp. unfold call_next.
    destruct Hprobe as [-> | ->];
      cbn [String.eqb Ascii.eqb Bool.eqb andb];
      rewrite ?andb_false_r;
      destruct (String.eqb (method request) "GET"); reflexivity.
  - intros Hpath Hverb. unfold dispatch, call_next. rewrite Hpath, Hverb. reflexivity.
  - intros Hpath Hverb. unfold dispatch. rewrite Hpath, Hverb. split; reflexivity.
Qed.

Lemma requests_outside_session_logic_witness :
  (dispatch bare_runtime sample_clock
     {| method := "GET"; path := "/health";
        headers := {[ "mcp-session-id" := "s1" ]};
        client_host := None; body := BodyEmpty |}
     transport_with_s1).2 = transport_with_s1.
Proof.
  apply (proj1 (requests_outside_session_logic bare_runtime sample_clock _
                  transport_with_s1)).
  left. reflexivity.
Defined.

Section Subscription.
Variables (rt : Runtime) (clk : Clock) (request : Request) (t : HTTPTransport).

Hypothesis Hverb : method request = "GET".
Hypothesis Hnone : headers request !! "mcp-session-id" = None.
Hypothesis Haccept : accepts_event_stream request = true.

Let sid := generate_session_id (token_bytes (entropy clk)) (time_text (entropy clk)).
Let created :=
  create_session (entropy clk) (Some (_extract_client_info request)) None
                 (session_manager t).

(** X16. A GET that accepts an event stream and names no session creates
    one, on /sse and on /mcp alike: the answer is a stream for the new
    session, the session manager is the one [create_session] leaves, and the
    new session has a queue. Only /mcp announces the identifier in
    Mcp-Session-Id; the legacy /sse response does not carry it. *)
Theorem subscription_creates_session :
  path request = "/sse" \/ path request = "/mcp" ->
  let r := dispatch rt clk request t in
  status_code r.1 = 200%Z
  /\ payload r.1 = EventStream sid
  /\ session_manager r.2 = created.2
  /\ message_queues r.2 !! sid = Some (default [] (message_queues t !! sid))
  /\ response_headers r.1 !! "Mcp-Session-Id"
     = if String.eqb (path request) "/mcp" then Some sid else None.
Proof.
  intros Hpath. cbv zeta.
  assert (Hopen : open_session (entropy clk) request t = (sid, set_manager created.2 t)).
  { unfold open_session. subst created sid. unfold create_session. reflexivity. }
  destruct Hpath as [Hpath | Hpath].
  - assert (Hdispatch : dispatch rt clk request t
                        = _handle_sse_request request (Some sid)
                            (set_manager created.2 t)).
    { unfold dispatch, _is_legacy_sse_request.
      rewrite Hpath, Hverb, Hnone, Haccept.
      cbn [String.eqb Ascii.eqb Bool.eqb andb orb negb].
      rewrite bool_decide_eq_false_2 by (intros [? [=]]). cbn [negb].
      rewrite Hopen. unfold call_next. rewrite Hpath, Hverb. reflexivity. }
    rewrite Hdispatch, Hpath.
    pose proof (handle_sse_request_attaches request (Some sid)
                  (set_manager created.2 t)) as Hsse.
    cbv zeta in Hsse. rewrite Haccept in Hsse.
    destruct Hsse as (Hstatus & Hpayload & Hhdr & Hqueue & _ & Hmanager).
    repeat split; assumption.
  - assert (Hdispatch : dispatch rt clk request t
                        = _handle_mcp_get_request (entropy clk) request (Some sid)
                            (set_manager created.2 t)).
    { unfold dispatch, _is_legacy_sse_request, _is_initialization_request,
        missing_session_id.
      rewrite Hpath, Hverb, Hnone, Haccept.
      cbn [String.eqb Ascii.eqb Bool.eqb andb orb negb existsb].
      rewrite Hopen. unfold call_next. rewrite Hpath, Hverb. reflexivity. }
    rewrite Hdispatch, Hpath.
    pose proof (handle_mcp_get_request_streams (entropy clk) request (Some sid)
                  (set_manager created.2 t)) as Hget.
    cbv zeta in Hget. rewrite Haccept in Hget.
    destruct Hget as (Hstatus & Hpayload & Hhdr & Hqueue & Hmanager).
    repeat split; assumption.
Qed.
End Subscription.

Lemma subscription_creates_session_witness :
  payload
    (dispatch bare_runtime sample_clock
       {| method := "GET"; path := "/sse";
          headers := {[ "accept" := "text/event-stream" ]};
          client_host := None; body := BodyEmpty |}
       fresh_transport).1
  = EventStream (generate_session_id (token_bytes (entropy sample_clock))
                   (time_text (entropy sample_clock))).
Proof.
  refine (proj1 (proj2 (subscription_creates_session bare_runtime sample_clock _
                          fresh_transport _ _ _ _)));
    try reflexivity.
  left. reflexivity.
Defined.

Section FirstContact.
Variables (rt : Runtime) (clk : Clock) (request : Request) (t : HTTPTransport).

Hypothesis Hverb : method request = "POST".
Hypothesis Hpath : path request = "/mcp".
Hypothesis Hnone : headers request !! "mcp-session-id" = None.

Lemma first_contact_post :
  dispatch rt clk request t
  = if (status_code (_handle_mcp_request rt request None t).1 =? 200)%Z
    then (set_header "Mcp-Session-Id"
            (open_session (entropy clk) request
               (_handle_mcp_request rt request None t).2).1
            (_handle_mcp_request rt request None t).1,
          (open_session (entropy clk) request
             (_handle_mcp_request rt request None t).2).2)
    else _handle_mcp_request rt request None t.
Proof.
  rewrite (dispatch_without_header rt clk request t Hnone).
  - unfold call_next. rewrite Hverb, Hpath. reflexivity.
  - rewrite Hpath. discriminate.
  - rewrite Hpath. discriminate.
  - intros _. rewrite Hverb. reflexivity.
  - rewrite Hverb. discriminate.
Qed.

Lemma handle_initialize_unbound (params request_id : json) :
  (_handle_initialize rt params request_id None t).2 = t.
Proof.
  unfold _handle_initialize, store_client.
  destruct params; try reflexivity. cbn [fst snd].
  rewrite set_manager_same.
  destruct (dict_get_default "capabilities" (obj []) fields);
    try destruct (is_dict _); reflexivity.
Qed.

Lemma handle_tools_call_unbound (params request_id : json) :
  (_handle_tools_call rt params request_id None t).2 = t.
Proof.
  unfold _handle_tools_call.
  destruct params; try reflexivity.
  destruct (negb _); [reflexivity |].
  destruct (has_tool rt _) as [[|] |]; try reflexivity.
  destruct (call_tool rt _ _); reflexivity.
Qed.

Lemma handle_logging_keeps_queues (params request_id : json) :
  message_queues (_handle_logging_set_level rt params request_id t).2
  = message_queues t.
Proof.
  unfold _handle_logging_set_level.
  destruct params; try reflexivity. destruct (_ && _); reflexivity.
Qed.

(** Without a bound session the dispatcher touches neither the session
    manager nor a queue. *)
Lemma process_unbound_frame (json_data : json) :
  session_manager (_process_mcp_request rt json_data None t).2 = session_manager t
  /\ message_queues (_process_mcp_request rt json_data None t).2 = message_queues t.
Proof.
  unfold _process_mcp_request.
  destruct json_data; try (split; reflexivity).
  repeat match goal with
         | |- context [if ?c then _ else _] => destruct c
         end; cbn [snd];
    rewrite ?handle_initialize_unbound, ?handle_tools_call_unbound,
      ?handle_logging_keeps_manager, ?handle_logging_keeps_queues;
    try (split; reflexivity).
  destruct (dict_get "method" fields); try (split; reflexivity).
  destruct (startswith _ _); split; reflexivity.
Qed.

Lemma handle_mcp_request_unbound_frame :
  session_manager (_handle_mcp_request rt request None t).2 = session_manager t
  /\ message_queues (_handle_mcp_request rt request None t).2 = message_queues t
  /\ response_headers (_handle_mcp_request rt request None t).1 = ∅.
Proof.
  unfold _handle_mcp_request, rendered, internal_error.
  destruct (body request) as [| reason | | json_data]; try (repeat split; reflexivity).
  destruct (_validate_jsonrpc_request json_data) as [rejection |].
  { destruct (renders rt rejection); repeat split; reflexivity. }
  destruct (process_unbound_frame json_data) as [Hmanager Hqueues].
  destruct (_process_mcp_request rt json_data None t) as [[[reply |] |] t'];
    cbn [fst snd] in *; try destruct (renders rt reply);
    repeat split; assumption || reflexivity.
Qed.

(** X17. A first contact that the handler does not answer 200 leaves no
    session behind: the middleware passes the handler's answer on as it is,
    without an Mcp-Session-Id header, and the session manager and the queues
    are as before. In particular an empty body and a body that is not JSON
    are answered 400 with code -32700, a body [json.loads] cannot read at all
    500 with code -32603, an envelope the validator rejects 400 with the
    rejection (500 when the rejection cannot be rendered), and a valid
    notification 204; in each of these cases the transport is exactly as
    before. *)
Theorem failed_first_contact_creates_nothing :
  (status_code (_handle_mcp_request rt request None t).1 <> 200%Z ->
   dispatch rt clk request t = _handle_mcp_request rt request None t
   /\ session_manager (dispatch rt clk request t).2 = session_manager t
   /\ message_queues (dispatch rt clk request t).2 = message_queues t
   /\ response_headers (dispatch rt clk request t).1 !! "Mcp-Session-Id" = None)
  /\ (body request = BodyEmpty ->
      dispatch rt clk request t
      = (JSONResponse 400 (error_notice (-32700) "Parse error: Empty request body"),
         t))
  /\ (forall reason,
        body request = BodyMalformed reason ->
        dispatch rt clk request t
        = (JSONResponse 400 (error_notice (-32700) ("Parse error: " ++ reason)), t))
  /\ (body request = BodyUnreadable ->
      dispatch rt clk request t
      = (JSONResponse 500 (error_notice (-32603) "Internal server error"), t))
  /\ (forall json_data rejection,
        body request = BodyJson json_data ->
        _validate_jsonrpc_request json_data = Some rejection ->
        dispatch rt clk request t
        = (if renders rt rejection then JSONResponse 400 rejection
           else JSONResponse 500 (error_notice (-32603) "Internal server error"),
           t))
  /\ (forall d name,
        body request = BodyJson (JObject d) ->
        _validate_jsonrpc_request (JObject d) = None ->
        d !! "method" = Some (JString name) ->
        startswith name "notifications/" = true ->
        dispatch rt clk request t
        = ({| status_code := 204; response_headers := ∅; payload := NoContent |}, t)).
Proof.
  split.
  { intros Hstatus. apply Z.eqb_neq in Hstatus.
    assert (Hsame : dispatch rt clk request t = _handle_mcp_request rt request None t)
      by (rewrite first_contact_post, Hstatus; reflexivity).
    rewrite Hsame.
    destruct handle_mcp_request_unbound_frame as (Hmanager & Hqueues & Hheaders).
    split; [reflexivity |]. split; [exact Hmanager |]. split; [exact Hqueues |].
    rewrite Hheaders. apply lookup_empty. }
  rewrite first_contact_post. unfold _handle_mcp_request, rendered, internal_error.
  split; [| split; [| split; [| split]]].
  - intros ->. reflexivity.
  - intros reason ->. reflexivity.
  - intros ->. reflexivity.
  - intros json_data rejection -> ->.
    destruct (renders rt rejection); reflexivity.
  - intros d name -> -> Hmethod Hprefix.
    rewrite (process_notification rt d name None t Hmethod Hprefix). reflexivity.
Qed.
End FirstContact.

Lemma failed_first_contact_creates_nothing_witness :
  dispatch bare_runtime sample_clock
    (post_mcp ∅ (obj [("jsonrpc", JString "1.0"); ("id", JInt 1);
                      ("method", JString "initialize")]))
    fresh_transport
  = (JSONResponse 400
       (error_notice (-32600) "Invalid Request: jsonrpc must be '2.0'"),
     fresh_transport).
Proof.
  pose proof (failed_first_contact_creates_nothing bare_runtime sample_clock
                (post_mcp ∅ (obj [("jsonrpc", JString "1.0"); ("id", JInt 1);
                                  ("method", JString "initialize")]))
                fresh_transport ltac:(reflexivity) ltac:(reflexivity)
                ltac:(reflexivity))
    as (_ & _ & _ & _ & Hrejected & _).
  rewrite (Hrejected
             (obj [("jsonrpc", JString "1.0"); ("id", JInt 1);
                   ("method", JString "initialize")])
             (error_notice (-32600) "Invalid Request: jsonrpc must be '2.0'")
             ltac:(reflexivity) ltac:(reflexivity)).
  reflexivity.
Defined.


(** ** The POST handler and the dispatcher *)

Lemma id_member_error_reply (request_id : json) (code : Z) (message : string) :
  id_member (error_reply request_id code message) = Some request_id.
Proof. reflexivity. Qed.

Lemma id_member_result_reply (request_id result : json) :
  id_member (result_reply request_id result) = Some request_id.
Proof. reflexivity. Qed.

(** X18. Every reply the dispatcher produces carries the identifier of the
    request: its "id" member is what the envelope's "id" reads as (null when
    the envelope has none), for results and errors of every method alike. *)
Theorem replies_echo_request_id (rt : Runtime) (d : dict) (session : option string)
    (t : HTTPTransport) (reply : json) :
  (_process_mcp_request rt (JObject d) session t).1 = Return (Some reply) ->
  id_member reply = Some (dict_get "id" d).
Proof.
  unfold _process_mcp_request. cbv zeta.
  set (request_id := dict_get "id" d).
  set (params := dict_get_default "params" (obj []) d).
  repeat match goal with
         | |- context [if eq_str ?m ?n then _ else _] => destruct (eq_str m n)
         end; cbn [fst snd].
  - unfold _handle_initialize.
    destruct params; try discriminate.
    destruct (store_client _ _ _ _ _) as [stored m].
    destruct stored, (dict_get_default "capabilities" (obj []) fields);
      try discriminate.
    destruct (is_dict _); [| discriminate].
    cbn [fst]. intros [= <-]. apply id_member_result_reply.
  - discriminate.
  - unfold _handle_tools_list. destruct (registry rt); intros [= <-]; reflexivity.
  - unfold _handle_tools_call.
    destruct params; try discriminate.
    destruct (negb _); [intros [= <-]; reflexivity |].
    destruct (has_tool rt _) as [[|] |]; try discriminate.
    + destruct (call_tool rt _ _); cbn [fst]; intros [= <-]; reflexivity.
    + intros [= <-]. reflexivity.
  - intros [= <-]. reflexivity.
  - intros [= <-]. reflexivity.
  - intros [= <-]. reflexivity.
  - intros [= <-]. reflexivity.
  - unfold _handle_logging_set_level.
    destruct params; try discriminate.
    destruct (_ && _); cbn [fst]; intros [= <-]; reflexivity.
  - destruct (dict_get "method" d); try discriminate.
    destruct (startswith _ _); [discriminate |]. intros [= <-]. reflexivity.
Qed.

Lemma replies_echo_request_id_witness :
  id_member (_handle_resources_list (JInt 1)) = Some (JInt 1).
Proof.
  exact (replies_echo_request_id bare_runtime
           (list_to_map [("jsonrpc", JString "2.0"); ("id", JInt 1);
                         ("method", JString "resources/list")])
           None fresh_transport (_handle_resources_list (JInt 1)) eq_refl).
Defined.

(** X19. The POST handler never raises and answers with one of four
    statuses. An empty body and a body that is not JSON are answered 400
    with code -32700, a body [json.loads] cannot read at all 500 with code
    -32603, an envelope the validator rejects 400 with the rejection, whose
    code is -32600; in these cases the transport is unchanged. Otherwise the
    dispatcher runs: its reply is answered 200, a notification 204 without a
    body, and an exception 500 with code -32603. Where the rejection or the
    reply cannot be rendered, the answer is 500 with code -32603 instead. *)
Theorem handle_mcp_request_statuses (rt : Runtime) (request : Request)
    (session : option string) (t : HTTPTransport) :
  let r := _handle_mcp_request rt request session t in
  let fault := JSONResponse 500 (error_notice (-32603) "Internal server error") in
  match body request with
  | BodyEmpty | BodyMalformed _ =>
      status_code r.1 = 400%Z /\ r.2 = t
      /\ response_error_code r.1 = Some (JInt (-32700))
  | BodyUnreadable => r = (fault, t)
  | BodyJson json_data =>
      match _validate_jsonrpc_request json_data with
      | Some rejection =>
          r = (if renders rt rejection then JSONResponse 400 rejection else fault, t)
          /\ error_member "code" rejection = Some (JInt (-32600))
      | None =>
          r.2 = (_process_mcp_request rt json_data session t).2
          /\ match (_process_mcp_request rt json_data session t).1 with
             | Return (Some reply) =>
                 r.1 = if renders rt reply then JSONResponse 200 reply else fault
             | Return None => status_code r.1 = 204%Z /\ payload r.1 = NoContent
             | Raise => r.1 = fault
             end
      end
  end
  /\ status_code fault = 500%Z
  /\ response_error_code fault = Some (JInt (-32603))
  /\ status_code r.1 ∈ [200; 204; 400; 500]%Z.
Proof.
  cbv zeta. unfold _handle_mcp_request, rendered, internal_error.
  split; [| split; [reflexivity | split; [reflexivity |]]].
  - destruct (body request) as [| reason | | json_data];
      [repeat split; reflexivity | repeat split; reflexivity | reflexivity |].
    destruct (_validate_jsonrpc_request json_data) as [rejection |] eqn:Hv.
    + split; [reflexivity |].
      exact (validator_error_code json_data rejection Hv).
    + destruct (_process_mcp_request rt json_data session t) as [[[reply |] |] t'];
        cbn [fst snd]; repeat split; reflexivity.
  - apply list_elem_of_In.
    destruct (body request) as [| reason | | json_data]; cbn; auto.
    destruct (_validate_jsonrpc_request json_data) as [rejection |].
    { destruct (renders rt rejection); cbn; auto. }
    destruct (_process_mcp_request rt json_data session t) as [[[reply |] |] t'];
      cbn [fst]; try destruct (renders rt reply); cbn; auto.
Qed.

Section Params.
Variables (rt : Runtime) (request : Request) (session : option string).
Variables (t : HTTPTransport) (d : dict) (params : json).

Hypothesis Hbody : body request = BodyJson (JObject d).
Hypothesis Hvalid : _validate_jsonrpc_request (JObject d) = None.
Hypothesis Hparams : d !! "params" = Some params.
Hypothesis Hshape : is_dict params = false.

(** X20. Positional or null params crash the handlers that read params.
    The validator lets a params array (or null) through, but initialize,
    tools/call and logging/setLevel read params as an object: such a request
    is answered 500 with code -32603 and the transport is unchanged. *)
Theorem positional_params_fault :
  eq_str (dict_get "method" d) "initialize" = true
  \/ eq_str (dict_get "method" d) "tools/call" = true
  \/ eq_str (dict_get "method" d) "logging/setLevel" = true ->
  _handle_mcp_request rt request session t
  = (JSONResponse 500 (error_notice (-32603) "Internal server error"), t).
Proof.
  intros Hmethod.
  assert (Hp : dict_get_default "params" (obj []) d = params)
    by (unfold dict_get_default; rewrite Hparams; reflexivity).
  assert (Hraise : (_process_mcp_request rt (JObject d) session t) = (Raise, t)).
  { unfold _process_mcp_request. cbv zeta. rewrite Hp.
    destruct (dict_get "method" d) as [| | | | name | |];
      try (destruct Hmethod as [H | [H | H]]; discriminate H).
    cbn [eq_str] in *.
    destruct Hmethod as [H | [H | H]]; apply String.eqb_eq in H; subst name;
      cbn [String.eqb Ascii.eqb Bool.eqb andb];
      unfold _handle_initialize, _handle_tools_call, _handle_logging_set_level;
      destruct params; try discriminate Hshape; reflexivity. }
  unfold _handle_mcp_request. rewrite Hbody, Hvalid, Hraise. reflexivity.
Qed.
End Params.

Lemma positional_params_fault_witness :
  _handle_mcp_request bare_runtime
    (post_mcp ∅ (obj [("jsonrpc", JString "2.0"); ("id", JInt 1);
                      ("method", JString "tools/call");
                      ("params", JArray [JString "get_gpu_status"])]))
    None fresh_transport
  = (JSONResponse 500 (error_notice (-32603) "Internal server error"),
     fresh_transport).
Proof.
  refine (positional_params_fault bare_runtime _ None fresh_transport
            (list_to_map [("jsonrpc", JString "2.0"); ("id", JInt 1);
                          ("method", JString "tools/call");
                          ("params", JArray [JString "get_gpu_status"])])
            (JArray [JString "get_gpu_status"]) _ _ _ _ _);
    try reflexivity.
  right. left. reflexivity.
Defined.

(** ** initialize *)


(** X22. What initialize may touch. Without a bound session the handler
    changes nothing, whatever the params. With one, it changes at most the
    record of that session: all other sessions, every queue, the logging
    level and the manager's settings are as before, and no session appears
    or disappears. *)
Theorem handle_initialize_frame (rt : Runtime) (params request_id : json)
    (session : option string) (t : HTTPTransport) :
  let r := _handle_initialize rt params request_id session t in
  (session = None -> r.2 = t)
  /\ message_queues r.2 = message_queues t
  /\ root_log_level r.2 = root_log_level t
  /\ session_timeout (session_manager r.2) = session_timeout (session_manager t)
  /\ dom (sessions (session_manager r.2)) = dom (sessions (session_manager t))
  /\ (forall other, Some other <> session ->
        sessions (session_manager r.2) !! other
        = sessions (session_manager t) !! other).
Proof.
  cbv zeta.
  split; [| split; [| split; [| split; [| split]]]].
  - intros ->. unfold _handle_initialize, store_client.
    destruct params; try reflexivity. cbn [fst snd].
    rewrite set_manager_same.
    destruct (dict_get_default "capabilities" (obj []) fields);
      try destruct (is_dict _); reflexivity.
  - unfold _handle_initialize. destruct params; try reflexivity.
    destruct (store_client _ _ _ _ _) as [stored m].
    destruct stored, (dict_get_default "capabilities" (obj []) fields);
      try destruct (is_dict _); reflexivity.
  - unfold _handle_initialize. destruct params; try reflexivity.
    destruct (store_client _ _ _ _ _) as [stored m].
    destruct stored, (dict_get_default "capabilities" (obj []) fields);
      try destruct (is_dict _); reflexivity.
  - unfold _handle_initialize. destruct params; try reflexivity.
    assert (Hkeep : session_timeout
                      (store_client rt session
                         (dict_get_default "clientInfo" (obj []) fields)
                         (dict_get_default "capabilities" (obj []) fields)
                         (session_manager t)).2
                    = session_timeout (session_manager t)).
    { unfold store_client. destruct session as [sid |]; [| reflexivity].
      destruct (sessions (session_manager t) !! sid); [| reflexivity].
      destruct (match dict_get_default "clientInfo" (obj []) fields with
                | JObject e => _ | _ => _ end). reflexivity. }
    destruct (store_client _ _ _ _ _) as [stored m]. cbn [snd] in Hkeep.
    destruct stored, (dict_get_default "capabilities" (obj []) fields);
      try destruct (is_dict _); exact Hkeep.
  - apply handle_initialize_dom.
  - intros other Hother. unfold _handle_initialize. destruct params; try reflexivity.
    assert (Hkeep : sessions
                      (store_client rt session
                         (dict_get_default "clientInfo" (obj []) fields)
                         (dict_get_default "capabilities" (obj []) fields)
                         (session_manager t)).2 !! other
                    = sessions (session_manager t) !! other).
    { unfold store_client. destruct session as [sid |]; [| reflexivity].
      destruct (sessions (session_manager t) !! sid); [| reflexivity].
      destruct (match dict_get_default "clientInfo" (obj []) fields with
                | JObject e => _ | _ => _ end).
      cbn [snd sessions set_sessions]. apply lookup_insert_ne. congruence. }
    destruct (store_client _ _ _ _ _) as [stored m]. cbn [snd] in Hkeep.
    destruct stored, (dict_get_default "capabilities" (obj []) fields);
      try destruct (is_dict _); exact Hkeep.
Qed.


(** ** Tools and logging *)

Section ToolsThroughPost.
Variables (rt : Runtime) (request : Request) (session : option string).
Variables (t : HTTPTransport) (d p : dict).

Hypothesis Hbody : body request = BodyJson (JObject d).
Hypothesis Hvalid : _validate_jsonrpc_request (JObject d) = None.
Hypothesis Hmethod : d !! "method" = Some (JString "tools/call").
Hypothesis Hparams : d !! "params" = Some (JObject p).
Hypothesis Hnamed : truthy (dict_get "name" p) = true.

Let tool := dict_get "name" p.
Let request_id := dict_get "id" d.

Lemma post_tools_call :
  _handle_mcp_request rt request session t
  = match (_handle_tools_call rt (JObject p) request_id session t).1 with
    | Return reply =>
        (rendered rt 200 reply,
         (_handle_tools_call rt (JObject p) request_id session t).2)
    | Raise =>
        (internal_error,
         (_handle_tools_call rt (JObject p) request_id session t).2)
    end.
Proof.
  assert (Hm : dict_get "method" d = JString "tools/call")
    by (unfold dict_get; rewrite Hmethod; reflexivity).
  assert (Hp : dict_get_default "params" (obj []) d = JObject p)
    by (unfold dict_get_default; rewrite Hparams; reflexivity).
  unfold _handle_mcp_request. rewrite Hbody, Hvalid.
  unfold _process_mcp_request. cbv zeta. rewrite Hm, Hp.
  cbn [eq_str String.eqb Ascii.eqb Bool.eqb andb].
  fold request_id.
  destruct (_handle_tools_call rt (JObject p) request_id session t) as [[reply |] t'];
    reflexivity.
Qed.

(** X23. Calling a tool the registry does not know is not an HTTP error:
    the answer has status 200 and carries the error -32601 naming the tool
    under the request's identifier, unless that reply cannot be rendered, in
    which case the answer is 500 with the internal error -32603. Either way
    no progress frame is pushed, even when the session has a channel, and
    the transport is unchanged. *)
Theorem unknown_tool_is_reported :
  has_tool rt tool = Return false ->
  let reply :=
    error_reply request_id (-32601) ("Tool '" ++ py_str rt tool ++ "' not found") in
  _handle_mcp_request rt request session t
  = (if renders rt reply then JSONResponse 200 reply
     else JSONResponse 500 (error_notice (-32603) "Internal server error"),
     t).
Proof.
  intros Hunknown. cbv zeta. rewrite post_tools_call.
  unfold _handle_tools_call. unfold tool in Hunknown |- *.
  rewrite Hnamed, Hunknown. reflexivity.
Qed.

(** X24. A tool that returns: the answer has status 200 and wraps the text
    in one content item of type text under the request's identifier, unless
    that reply cannot be rendered, in which case the answer is 500 with the
    internal error -32603. Either way exactly two frames are pushed for the
    bound session, begin and then end with "Tool execution completed", and a
    channel attached to the session ends with them; the session table is not
    touched. *)
Theorem successful_tool_call (sid : string) (content_text : string) :
  session = Some sid ->
  has_tool rt tool = Return true ->
  call_tool rt tool (dict_get_default "arguments" (obj []) p) = ToolText content_text ->
  let r := _handle_mcp_request rt request session t in
  let begin_frame := progress_begin rt request_id tool in
  let end_frame := progress_end rt request_id "Tool execution completed" in
  let reply :=
    result_reply request_id
      (obj [("content",
             JArray [obj [("type", JString "text");
                          ("text", JString content_text)]])]) in
  r.1 = (if renders rt reply then JSONResponse 200 reply
         else JSONResponse 500 (error_notice (-32603) "Internal server error"))
  /\ r.2 = _send_sse_message sid end_frame (_send_sse_message sid begin_frame t)
  /\ (forall pending,
        message_queues t !! sid = Some pending ->
        message_queues r.2 !! sid = Some (pending ++ [begin_frame; end_frame])%list)
  /\ session_manager r.2 = session_manager t.
Proof.
  intros Hsession Hknown Hreturns. cbv zeta. rewrite post_tools_call.
  rewrite Hsession. unfold _handle_tools_call. unfold tool in Hknown, Hreturns.
  rewrite Hnamed, Hknown, Hreturns.
  cbn [negb fst snd notify].
  split; [reflexivity |]. split; [reflexivity |]. split.
  - intros pending Hq.
    pose proof (pushes_queued sid
                  [progress_begin rt request_id tool;
                   progress_end rt request_id "Tool execution completed"]
                  pending t Hq) as Hqueue.
    cbn [fold_left] in Hqueue. unfold tool, request_id in Hqueue |- *.
    rewrite Hqueue. cbn [message_queues set_queues]. apply lookup_insert_eq.
  - rewrite !send_keeps_manager. reflexivity.
Qed.
End ToolsThroughPost.

Lemma unknown_tool_is_reported_witness :
  _handle_mcp_request failing_runtime (tools_call_request "nonexistent")
    (Some "s1") streaming_transport
  = (JSONResponse 200
       (error_reply (JInt 2) (-32601) "Tool 'nonexistent' not found"),
     streaming_transport).
Proof.
  pose proof (unknown_tool_is_reported failing_runtime
                (tools_call_request "nonexistent") (Some "s1") streaming_transport
                (list_to_map [("jsonrpc", JString "2.0"); ("id", JInt 2);
                              ("method", JString "tools/call");
                              ("params", obj [("name", JString "nonexistent")])])
                (list_to_map [("name", JString "nonexistent")])
                ltac:(reflexivity) ltac:(reflexivity) ltac:(reflexivity)
                ltac:(reflexivity) ltac:(reflexivity) ltac:(reflexivity))
    as Hreported.
  cbv zeta in Hreported. rewrite Hreported. reflexivity.
Defined.

Lemma successful_tool_call_witness :
  message_queues
    (_handle_mcp_request working_runtime (tools_call_request "get_gpu_status")
       (Some "s1") streaming_transport).2 !! "s1"
  = Some [progress_begin working_runtime (JInt 2) (JString "get_gpu_status");
          progress_end working_runtime (JInt 2) "Tool execution completed"].
Proof.
  refine (proj1 (proj2 (proj2
            (successful_tool_call working_runtime _ (Some "s1") streaming_transport
               (list_to_map [("jsonrpc", JString "2.0"); ("id", JInt 2);
                             ("method", JString "tools/call");
                             ("params", obj [("name", JString "get_gpu_status")])])
               (list_to_map [("name", JString "get_gpu_status")])
               _ _ _ _ _ "s1" "GPU 0: healthy" _ _ _))) [] _);
    reflexivity.
Defined.

(** X25. tools/list answers with one descriptor per registered tool, in
    the order of the registry. Each descriptor carries the tool's name, and
    its description and input schema are never empty: a tool without a
    description is described as "Execute <key>", a tool without parameters
    gets the empty object schema. If the registry cannot be read the answer
    is the error -32603 with the reason. *)
Theorem tools_list_describes_registry (rt : Runtime) (params request_id : json) :
  match registry rt with
  | Tools entries =>
      exists descriptors,
        _handle_tools_list rt params request_id
        = result_reply request_id (obj [("tools", JArray descriptors)])
        /\ length descriptors = length entries
        /\ forall i key tool,
             entries !! i = Some (key, tool) ->
             exists d,
               descriptors !! i = Some (JObject d)
               /\ d !! "name" = Some (JString (tool_name tool))
               /\ d !! "description"
                  = Some (if truthy (tool_description tool)
                          then tool_description tool
                          else JString ("Execute " ++ key))
               /\ truthy (dict_get "description" d) = true
               /\ truthy (dict_get "inputSchema" d) = true
  | ToolsUnavailable reason =>
      _handle_tools_list rt params request_id
      = error_reply request_id (-32603) ("Internal server error: " ++ reason)
  end.
Proof.
  unfold _handle_tools_list.
  destruct (registry rt) as [entries | reason]; [| reflexivity].
  exists (map tool_def entries).
  split; [reflexivity |]. split; [apply length_map |].
  intros i key tool Hentry.
  exists (list_to_map
            [("name", JString (tool_name tool));
             ("description",
              if truthy (tool_description tool) then tool_description tool
              else JString ("Execute " ++ key));
             ("inputSchema",
              if truthy (tool_parameters tool) then tool_parameters tool
              else default_schema)]).
  split; [rewrite list_lookup_fmap, Hentry; reflexivity |].
  split; [reflexivity |]. split; [reflexivity |].
  split.
  - change (truthy (if truthy (tool_description tool) then tool_description tool
                    else JString ("Execute " ++ key)) = true).
    destruct (truthy (tool_description tool)) eqn:Hd; [exact Hd | reflexivity].
  - change (truthy (if truthy (tool_parameters tool) then tool_parameters tool
                    else default_schema) = true).
    destruct (truthy (tool_parameters tool)) eqn:Hp; [exact Hp |].
    vm_compute. reflexivity.
Qed.

(** X26. logging/setLevel accepts exactly the five lower-case level names.
    An accepted level is recorded and answered with an empty result; any
    other value (another string, another case, a missing level, a value that
    is not a string) is answered with the error -32602 and the level stays as
    it was. Sessions and queues are never touched. *)
Theorem logging_set_level_accepts_five (rt : Runtime) (p : dict)
    (request_id : json) (t : HTTPTransport) :
  let r := _handle_logging_set_level rt (JObject p) request_id t in
  let level := dict_get "level" p in
  (forall name,
     level = JString name -> name ∈ logging_levels ->
     r = (Return (result_reply request_id (obj [])), set_log_level name t))
  /\ ((forall name, level = JString name -> name ∉ logging_levels) ->
      r = (Return (error_reply request_id (-32602)
                     ("Invalid logging level: " ++ py_str rt level)), t))
  /\ session_manager r.2 = session_manager t
  /\ message_queues r.2 = message_queues t.
Proof.
  cbv zeta. unfold _handle_logging_set_level.
  split; [| split].
  - intros name Hlevel Hin. rewrite Hlevel. cbn [is_str str_value andb].
    assert (Hfound : existsb (String.eqb name) logging_levels = true).
    { apply existsb_exists. exists name.
      split; [apply list_elem_of_In, Hin | apply String.eqb_refl]. }
    rewrite Hfound. reflexivity.
  - intros Hnot.
    destruct (is_str (dict_get "level" p)
              && existsb (String.eqb (str_value (dict_get "level" p))) logging_levels)
      eqn:Hok; [| reflexivity].
    apply andb_true_iff in Hok as [Hstr Hfound].
    destruct (dict_get "level" p) as [| | | | name | |] eqn:Hlevel;
      try discriminate Hstr.
    cbn [str_value] in Hfound.
    apply existsb_exists in Hfound as (found & Hin & Heq).
    apply String.eqb_eq in Heq. subst found.
    exfalso. apply (Hnot name eq_refl), list_elem_of_In, Hin.
  - destruct (_ && _); split; reflexivity.
Qed.

Lemma logging_set_level_accepts_five_witness :
  _handle_logging_set_level bare_runtime (obj [("level", JString "DEBUG")]) (JInt 3)
    fresh_transport
  = (Return (error_reply (JInt 3) (-32602) "Invalid logging level: DEBUG"),
     fresh_transport).
Proof.
  refine (proj1 (proj2 (logging_set_level_accepts_five bare_runtime
                          (list_to_map [("level", JString "DEBUG")]) (JInt 3)
                          fresh_transport)) _).
  intros name [= <-] Hin. apply list_elem_of_In in Hin. cbn in Hin.
  repeat destruct Hin as [Hin | Hin]; try discriminate Hin. exact Hin.
Defined.


(** ** The event stream *)

Lemma sse_loop_drains (sid : string) (nows : list float) :
  forall (pending : list json) (t : HTTPTransport),
    message_queues t !! sid = Some pending ->
    length nows <= length pending ->
    (sse_loop sid (map Dequeued nows) t).1.1
    = zip_with message_event nows pending
    /\ (sse_loop sid (map Dequeued nows) t).1.2 = Streaming
    /\ message_queues (sse_loop sid (map Dequeued nows) t).2
       = <[sid := drop (length nows) pending]> (message_queues t)
    /\ session_manager (sse_loop sid (map Dequeued nows) t).2 = session_manager t.
Proof.
  induction nows as [| now nows IH]; intros pending t Hq Hlen.
  - cbn. rewrite (insert_id _ _ _ Hq). auto.
  - destruct pending as [| message pending]; [cbn in Hlen; lia |].
    cbn [map sse_loop sse_step]. rewrite Hq.
    set (t1 := set_queues (<[sid := pending]> (message_queues t)) t).
    assert (Hq1 : message_queues t1 !! sid = Some pending)
      by (subst t1; cbn [message_queues set_queues]; apply lookup_insert_eq).
    destruct (IH pending t1 Hq1 ltac:(cbn in Hlen; lia))
      as (Hevents & Hstream & Hqueues & Hmanager).
    destruct (sse_loop sid (map Dequeued nows) t1) as [[later stream] t2].
    cbn [fst snd] in *. subst later stream.
    split; [reflexivity |]. split; [reflexivity |].
    split; [| rewrite Hmanager; reflexivity].
    rewrite Hqueues. subst t1. cbn [message_queues set_queues length drop].
    apply insert_insert_eq.
Qed.

(** X27. Order of delivery. Messages pushed for a session whose stream is
    open come out of the stream as message events, behind those already
    pending and in the order of the pushes, after the connection event that
    opens every stream; each event carries the message unchanged, and the
    queue is empty once they are all delivered. *)
Theorem stream_delivers_in_order (sid : string) (messages pending : list json)
    (nows : list float) (t : HTTPTransport) :
  message_queues t !! sid = Some pending ->
  length nows = length pending + length messages ->
  exists t',
    _sse_generator sid (map Dequeued nows)
      (fold_left (fun acc message => _send_sse_message sid message acc) messages t)
    = Return (connection_event sid
                :: zip_with message_event nows (pending ++ messages)%list,
              Streaming, t')
    /\ message_queues t' !! sid = Some []
    /\ session_manager t' = session_manager t.
Proof.
  intros Hq Hlen.
  rewrite (pushes_queued sid messages pending t Hq).
  set (pushed := set_queues _ t).
  assert (Hmanager : session_manager pushed = session_manager t) by reflexivity.
  assert (Hpushed : message_queues pushed !! sid = Some (pending ++ messages)%list)
    by (subst pushed; cbn [message_queues set_queues]; apply lookup_insert_eq).
  destruct (sse_loop_drains sid nows (pending ++ messages)%list pushed Hpushed)
    as (Hevents & Hstream & Hleft & Hkept).
  { rewrite length_app. lia. }
  unfold _sse_generator. rewrite Hpushed.
  destruct (sse_loop sid (map Dequeued nows) pushed) as [[events stream] t'].
  cbn [fst snd] in *. subst events stream.
  exists t'. split; [reflexivity |]. split; [| congruence].
  rewrite Hleft, lookup_insert_eq, drop_ge; [reflexivity |].
  rewrite length_app. lia.
Qed.

Lemma stream_delivers_in_order_witness :
  exists t',
    _sse_generator "s1" [Dequeued 1%float; Dequeued 2%float]
      (fold_left (fun acc message => _send_sse_message "s1" message acc)
                 [JInt 1; JInt 2] streaming_transport)
    = Return ([connection_event "s1"; message_event 1%float (JInt 1);
               message_event 2%float (JInt 2)], Streaming, t')
    /\ message_queues t' !! "s1" = Some []
    /\ session_manager t' = session_manager streaming_transport.
Proof.
  exact (stream_delivers_in_order "s1" [JInt 1; JInt 2] []
           [1%float; 2%float] streaming_transport eq_refl eq_refl).
Defined.

(** X28. However a stream ends once its loop has started, the session's
    queue is removed: a fault and a cancellation always close the stream, and
    a closed stream has no channel left, so that every message pushed for
    the session afterwards is dropped. *)
Theorem closed_stream_has_no_channel (sid : string) (wakeups : list Wakeup)
    (t : HTTPTransport) :
  (existsb closes wakeups = true -> (sse_loop sid wakeups t).1.2 = Closed)
  /\ ((sse_loop sid wakeups t).1.2 = Closed ->
      message_queues (sse_loop sid wakeups t).2 !! sid = None
      /\ forall message,
           _send_sse_message sid message (sse_loop sid wakeups t).2
           = (sse_loop sid wakeups t).2).
Proof.
  assert (Hstep : forall w t0,
             (sse_step sid w t0).1.2 = Closed ->
             message_queues (sse_step sid w t0).2 !! sid = None).
  { intros w t0. destruct w as [now | t_check t_touch now | reason now |];
      cbn [sse_step].
    - destruct (message_queues t0 !! sid) as [[| ? ?] |]; discriminate.
    - destruct (get_session sid t_check t_touch (session_manager t0))
        as [[s |] m]; cbn [fst snd]; [discriminate |].
      intros _. rewrite cleanup_session_queue_eq. apply lookup_delete_eq.
    - intros _. rewrite cleanup_session_queue_eq. apply lookup_delete_eq.
    - intros _. rewrite cleanup_session_queue_eq. apply lookup_delete_eq. }
  assert (Hcloses : forall w t0, closes w = true -> (sse_step sid w t0).1.2 = Closed).
  { intros w t0. destruct w; try discriminate; reflexivity. }
  revert t. induction wakeups as [| w rest IH]; intros t.
  - split; [discriminate | cbn; discriminate].
  - cbn [sse_loop existsb].
    pose proof (Hstep w t) as Hgone. pose proof (Hcloses w t) as Hclose.
    destruct (sse_step sid w t) as [[events [|]] t1]; cbn [fst snd] in *.
    + destruct (IH t1) as [IHclose IHgone].
      destruct (sse_loop sid rest t1) as [[later stream] t2]. cbn [fst snd] in *.
      split.
      * intros Hex. apply orb_true_iff in Hex as [Hw | Hrest];
          [specialize (Hclose Hw); discriminate | auto].
      * exact IHgone.
    + split; [reflexivity |]. intros _. split; [auto |].
      intros message. unfold _send_sse_message. rewrite Hgone by reflexivity.
      reflexivity.
Qed.

Lemma last_cons_default {A : Type} (l : list A) :
  forall x d : A, List.last (x :: l) d = List.last l x.
Proof.
  induction l as [| y l IH]; intros x d; [reflexivity |].
  change (List.last (x :: y :: l) d) with (List.last (y :: l) d).
  rewrite (IH y d), (IH y x). reflexivity.
Qed.

Lemma idle_triple (idle : float * float * float) :
  idle_wakeup idle = TimedOut idle.1.1 idle.1.2 idle.2.
Proof. reflexivity. Qed.

(** X29. An open stream keeps its session alive. As long as each idle
    check comes before the session would expire, counted from the previous
    access, every idle timeout produces exactly one heartbeat, the stream
    stays open, the queues are untouched and the session stays stored, its
    last access time being the one the latest check wrote. *)
Theorem heartbeats_keep_session_alive (sid : string)
    (idles : list (float * float * float)) :
  forall (s : Session) (t : HTTPTransport),
    sid <> "" ->
    sessions (session_manager t) !! sid = Some s ->
    idle_within (session_timeout (session_manager t)) (last_accessed s) idles = true ->
    let r := sse_loop sid (map idle_wakeup idles) t in
    r.1.1 = map (fun idle => heartbeat_event idle.2 sid) idles
    /\ r.1.2 = Streaming
    /\ message_queues r.2 = message_queues t
    /\ exists s',
         sessions (session_manager r.2) !! sid = Some s'
         /\ last_accessed s' = List.last (map (fun idle => idle.1.2) idles) (last_accessed s)
         /\ client_info s' = client_info s /\ context s' = context s.
Proof.
  cbv zeta.
  induction idles as [| [[t_check t_touch] now] idles IH]; intros s t Hkey Hs Hwithin.
  - cbn. eauto 10.
  - cbn [idle_within] in Hwithin.
    apply andb_true_iff in Hwithin as [Hlive Hrest].
    apply negb_true_iff in Hlive.
    cbn [map sse_loop]. rewrite idle_triple. cbn [fst snd sse_step].
    rewrite (get_session_stored _ _ _ Hkey Hs). unfold is_expired. rewrite Hlive.
    set (t1 := set_manager _ t).
    assert (Hs1 : sessions (session_manager t1) !! sid
                  = Some (update_access_time t_touch s))
      by (subst t1; cbn [session_manager set_manager sessions set_sessions];
          apply lookup_insert_eq).
    destruct (IH (update_access_time t_touch s) t1 Hkey Hs1 Hrest)
      as (Hevents & Hstream & Hqueues & s' & Hs' & Hlast & Hinfo & Hcontext).
    destruct (sse_loop sid (map idle_wakeup idles) t1) as [[later stream] t2].
    cbn [fst snd] in *. subst later stream.
    split; [reflexivity |]. split; [reflexivity |].
    split; [rewrite Hqueues; reflexivity |].
    exists s'. split; [exact Hs' |]. split; [| split; assumption].
    rewrite Hlast. cbn [update_access_time last_accessed map fst snd].
    rewrite last_cons_default. reflexivity.
Qed.

Lemma heartbeats_keep_session_alive_witness :
  (sse_loop "s1"
     (map idle_wakeup [(1030%float, 1030%float, 1030%float);
                       (4600%float, 4600%float, 4600%float)])
     streaming_transport).1.2 = Streaming.
Proof.
  refine (proj1 (proj2 (heartbeats_keep_session_alive "s1"
                          [(1030%float, 1030%float, 1030%float);
                           (4600%float, 4600%float, 4600%float)]
                          session_at_1000 streaming_transport _ _ _)));
    [discriminate | reflexivity | reflexivity].
Defined.

(** ** Tool schemas *)

Lemma properties_of_signature (signature : list SigParam) :
  forall acc : dict,
    NoDup (map param_name signature) ->
    (forall p, p ∈ signature -> acc !! param_name p = None) ->
    let properties :=
      fold_left (fun acc p => <[param_name p := JObject (param_info p)]> acc)
                signature acc in
    (forall p, p ∈ signature ->
               properties !! param_name p = Some (JObject (param_info p)))
    /\ (forall k, k ∉ map param_name signature -> properties !! k = acc !! k)
    /\ size properties = size acc + length signature.
Proof.
  cbv zeta.
  induction signature as [| q signature IH]; intros acc Hnodup Hfresh.
  - cbn. split; [intros p Hp; inversion Hp |]. split; [reflexivity | lia].
  - cbn [fold_left map] in *. apply NoDup_cons in Hnodup as [Hq Hnodup].
    destruct (IH (<[param_name q := JObject (param_info q)]> acc) Hnodup)
      as (Hin & Hout & Hsize).
    { intros p Hp. rewrite lookup_insert_ne.
      - apply Hfresh. right. exact Hp.
      - intros Heq. apply Hq. rewrite Heq. apply list_elem_of_fmap_2. exact Hp. }
    split; [| split].
    + intros p [-> | Hp]%elem_of_cons; [| apply Hin, Hp].
      rewrite (Hout _ Hq). apply lookup_insert_eq.
    + intros k [Hk Hrest]%not_elem_of_cons.
      rewrite (Hout _ Hrest). apply lookup_insert_ne. congruence.
    + rewrite Hsize, map_size_insert_None; [cbn; lia |].
      apply Hfresh. left.
Qed.

(** X30. The schema derived from a signature. The required names are
    those of the parameters without a default, in the order of the
    signature; every parameter has exactly one property, whose type is the
    JSON type of its annotation ("string" when there is none or when it is
    not recognised) and whose default is recorded exactly when the parameter
    has one. *)
Theorem extract_tool_schema_describes_signature (signature : list SigParam) :
  NoDup (map param_name signature) ->
  exists properties : dict,
    _extract_tool_schema signature
    = obj [("type", JString "object");
           ("properties", JObject properties);
           ("required",
            JArray (map (fun p => JString (param_name p))
                        (List.filter has_no_default signature)))]
    /\ size properties = length signature
    /\ forall p, p ∈ signature ->
         exists info : dict,
           properties !! param_name p = Some (JObject info)
           /\ info !! "type" = Some (JString (schema_type (param_annotation p)))
           /\ info !! "default" = param_default p
           /\ (JString (param_name p)
                 ∈ map (fun p => JString (param_name p))
                       (List.filter has_no_default signature)
               <-> param_default p = None).
Proof.
  intros Hnodup.
  destruct (properties_of_signature signature ∅ Hnodup) as (Hin & _ & Hsize).
  { intros p _. apply lookup_empty. }
  cbv zeta in Hin, Hsize.
  eexists. split; [reflexivity |]. split; [rewrite Hsize, map_size_empty; lia |].
  intros p Hp. exists (param_info p). split; [apply Hin, Hp |].
  unfold param_info.
  split; [destruct (param_default p); reflexivity |].
  split; [destruct (param_default p); reflexivity |].
  rewrite list_elem_of_fmap. split.
  - intros (q & [= Hname] & Hq).
    apply list_elem_of_In, filter_In in Hq as [Hq%list_elem_of_In Hnone].
    assert (q = p).
    { apply list_elem_of_lookup in Hq as [i Hi], Hp as [j Hj].
      assert (i = j).
      { apply (NoDup_lookup _ i j (param_name p) Hnodup);
          rewrite list_lookup_fmap; [rewrite Hi | rewrite Hj]; cbn; congruence. }
      subst j. congruence. }
    subst q. unfold has_no_default in Hnone.
    destruct (param_default p); [discriminate | reflexivity].
  - intros Hnone. exists p. split; [reflexivity |].
    apply list_elem_of_In, filter_In. split; [apply list_elem_of_In, Hp |].
    unfold has_no_default. rewrite Hnone. reflexivity.
Qed.

Lemma extract_tool_schema_describes_signature_witness :
  exists properties : dict,
    _extract_tool_schema
      [{| param_name := "device_id"; param_annotation := AnnStr;
          param_default := Some (JString "0") |}]
    = obj [("type", JString "object"); ("properties", JObject properties);
           ("required", JArray [])]
    /\ size properties = 1.
Proof.
  destruct (extract_tool_schema_describes_signature
              [{| param_name := "device_id"; param_annotation := AnnStr;
                  param_default := Some (JString "0") |}])
    as (properties & Hschema & Hsize & _).
  - repeat constructor. intros Hin. inversion Hin.
  - exists properties. split; [exact Hschema | exact Hsize].
Defined.
